(** * discord.http: member.py and mentions.py

    A shallow embedding of the data-model wrappers of [discord_http/member.py]
    ([PartialMember], [ThreadMember], [Member]) and of
    [discord_http/mentions.py] ([AllowedMentions]), together with the
    properties their specification states about them.

    Python values are a small universe [pyval]; a [dict] is a [gmap] with
    string keys; a raised exception is a value of [exn] carried by [res];
    the request dispatcher ([DiscordAPI]) is an oracle whose calls are
    recorded in the [world], which also holds the system clock and the
    hydrated [Member] objects allocated so far. *)

From Stdlib Require Import ZArith Ascii String.
From stdpp Require Import gmap strings list fin_maps pretty.

Open Scope string_scope.
Open Scope Z_scope.

(** ** Python values *)

(** The values that flow through the two modules: JSON documents received
    from and sent to the dispatcher, and the [timedelta] / [datetime] objects
    accepted by [PartialMember.edit].  A [timedelta] is a number of
    microseconds, a naive [datetime] is the number of microseconds elapsed
    since 0001-01-01T00:00:00. *)
#[warnings="-register-all"]
Inductive pyval : Type :=
| PNone
| PBool (b : bool)
| PInt (n : Z)
| PStr (s : string)
| PList (xs : list pyval)
| PDict (d : gmap string pyval)
| PTimedelta (us : Z)
| PDatetime (us : Z).

Abbreviation pydict := (gmap string pyval).

(** An exception: its class and its message. *)
Record exn : Type := Exn { exn_class : string; exn_msg : string }.

Definition ValueError (msg : string) : exn := Exn "ValueError" msg.
Definition TypeError (msg : string) : exn := Exn "TypeError" msg.
Definition KeyError (key : string) : exn := Exn "KeyError" key.
Definition AttributeError (msg : string) : exn := Exn "AttributeError" msg.
Definition OverflowError (msg : string) : exn := Exn "OverflowError" msg.

(** The outcome of an expression that may raise. *)
Inductive res (A : Type) : Type :=
| Ok (a : A)
| Raise (e : exn).
Arguments Ok {A} a.
Arguments Raise {A} e.

#[global] Instance res_ret : MRet res := fun A a => Ok a.
#[global] Instance res_bind : MBind res := fun A B f r =>
  match r with
  | Ok a => f a
  | Raise e => Raise e
  end.

Definition is_Ok {A} (r : res A) : bool :=
  match r with Ok _ => true | Raise _ => false end.

(** *** Builtins *)

(** [bool(v)]. *)
Definition truthy (v : pyval) : bool :=
  match v with
  | PNone => false
  | PBool b => b
  | PInt n => negb (n =? 0)
  | PStr s => negb (String.eqb s EmptyString)
  | PList xs => match xs with [] => false | _ => true end
  | PDict d => negb (bool_decide (d = ∅))
  | PTimedelta us => negb (us =? 0)
  | PDatetime _ => true
  end.

(** [a or b]. *)
Definition py_or (a b : pyval) : pyval := if truthy a then a else b.

(** [str(n)] for an [int]: the decimal rendering. *)
Definition str_int (n : Z) : string := pretty n.

Definition type_name (v : pyval) : string :=
  match v with
  | PNone => "NoneType"
  | PBool _ => "bool"
  | PInt _ => "int"
  | PStr _ => "str"
  | PList _ => "list"
  | PDict _ => "dict"
  | PTimedelta _ => "datetime.timedelta"
  | PDatetime _ => "datetime.datetime"
  end.

Definition is_space (c : ascii) : bool :=
  let n := Z.of_N (Ascii.N_of_ascii c) in
  ((9 <=? n) && (n <=? 13)) || (n =? 32).

Definition is_digit (c : ascii) : bool :=
  let n := Z.of_N (Ascii.N_of_ascii c) in (48 <=? n) && (n <=? 57).

Definition digit_val (c : ascii) : Z := Z.of_N (Ascii.N_of_ascii c) - 48.

Fixpoint lstrip (s : string) : string :=
  match s with
  | String c s' => if is_space c then lstrip s' else s
  | EmptyString => EmptyString
  end.

Definition strip (s : string) : string :=
  String.rev (lstrip (String.rev (lstrip s))).

(** Decimal digits, single underscores allowed between two digits;
    [after_us] records that the previous character was an underscore. *)
Fixpoint digits_tail (s : string) (acc : Z) (after_us : bool) : option Z :=
  match s with
  | EmptyString => if after_us then None else Some acc
  | String c s' =>
      if is_digit c then digits_tail s' (10 * acc + digit_val c) false
      else if Ascii.eqb c "_"%char
           then (if after_us then None else digits_tail s' acc true)
           else None
  end.

Definition digits (s : string) : option Z :=
  match s with
  | String c s' => if is_digit c then digits_tail s' (digit_val c) false else None
  | EmptyString => None
  end.

(** [int(s)] for an ASCII [str] in base ten: surrounding white space is
    dropped, then an optional sign, then the digits. *)
Definition int_of_str (s : string) : option Z :=
  match strip s with
  | String "-" s' => Z.opp <$> digits s'
  | String "+" s' => digits s'
  | s' => digits s'
  end.

(** [int(v)]. *)
Definition py_int (v : pyval) : res Z :=
  match v with
  | PInt n => Ok n
  | PBool b => Ok (Z.b2z b)
  | PStr s =>
      match int_of_str s with
      | Some n => Ok n
      | None => Raise (ValueError ("invalid literal for int() with base 10: '"
                                   ++ s ++ "'"))
      end
  | _ => Raise (TypeError ("int() argument must be a string, a bytes-like object "
                           ++ "or a real number, not '" ++ type_name v ++ "'"))
  end.

(** [v[key]] for a string key. *)
Definition getitem (v : pyval) (key : string) : res pyval :=
  match v with
  | PDict d =>
      match d !! key with
      | Some x => Ok x
      | None => Raise (KeyError key)
      end
  | PStr _ => Raise (TypeError "string indices must be integers")
  | PList _ => Raise (TypeError "list indices must be integers or slices, not str")
  | _ => Raise (TypeError ("'" ++ type_name v ++ "' object is not subscriptable"))
  end.

(** [v.get(key, default)]. *)
Definition py_get (v : pyval) (key : string) (default : pyval) : res pyval :=
  match v with
  | PDict d => Ok (match d !! key with Some x => x | None => default end)
  | _ => Raise (AttributeError ("'" ++ type_name v
                                ++ "' object has no attribute 'get'"))
  end.

(** ** [datetime] *)

Definition US_PER_SECOND : Z := 1000000.
Definition US_PER_DAY : Z := 86400 * US_PER_SECOND.

(** [timedelta.min <= td <= timedelta.max]: at most 999999999 days in
    magnitude. *)
Definition timedelta_in_range (us : Z) : bool :=
  (-999999999 * US_PER_DAY <=? us) && (us <? 1000000000 * US_PER_DAY).

(** [datetime.min <= t <= datetime.max]: years 1 to 9999. *)
Definition datetime_in_range (us : Z) : bool :=
  (0 <=? us) && (us <? 3652059 * US_PER_DAY).

(** [timedelta(days=days, seconds=seconds)] for integer arguments. *)
Definition timedelta (days seconds : Z) : res Z :=
  let us := days * US_PER_DAY + seconds * US_PER_SECOND in
  if timedelta_in_range us then Ok us
  else Raise (OverflowError ("days=" ++ str_int (us / US_PER_DAY)
                             ++ "; must have magnitude <= 999999999")).

(** [int(td.total_seconds())]: the float has the exact number of seconds
    for the durations met here, and [int] truncates towards zero. *)
Definition total_seconds_int (td : Z) : Z := Z.quot td US_PER_SECOND.

(** [dt + td]. *)
Definition datetime_add (dt td : Z) : res Z :=
  if datetime_in_range (dt + td) then Ok (dt + td)
  else Raise (OverflowError "date value out of range").

(** The civil date [(year, month, day)] of a day count, day [0] being
    0001-01-01 in the proleptic Gregorian calendar. *)
Definition civil_of_days (d : Z) : Z * Z * Z :=
  let z := d + 306 in
  let era := z / 146097 in
  let doe := z - era * 146097 in
  let yoe := (doe - doe / 1460 + doe / 36524 - doe / 146096) / 365 in
  let y := yoe + era * 400 in
  let doy := doe - (365 * yoe + yoe / 4 - yoe / 100) in
  let mp := (5 * doy + 2) / 153 in
  let day := doy - (153 * mp + 2) / 5 + 1 in
  let month := if mp <? 10 then mp + 3 else mp - 9 in
  let year := if month <=? 2 then y + 1 else y in
  (year, month, day).

(** ["%0{width}d" % n] for [0 <= n]. *)
Definition zero_pad (width : nat) (n : Z) : string :=
  let s := str_int n in
  String.concat EmptyString (replicate (width - String.length s)%nat "0") ++ s.

(** [dt.isoformat()] of a naive [datetime]; the fraction is printed only
    when the microsecond field is not zero. *)
Definition isoformat (dt : Z) : string :=
  let '(year, month, day) := civil_of_days (dt / US_PER_DAY) in
  let tod := dt mod US_PER_DAY in
  let secs := tod / US_PER_SECOND in
  let us := tod mod US_PER_SECOND in
  zero_pad 4 year ++ "-" ++ zero_pad 2 month ++ "-" ++ zero_pad 2 day ++ "T"
  ++ zero_pad 2 (secs / 3600) ++ ":" ++ zero_pad 2 (secs / 60 mod 60) ++ ":"
  ++ zero_pad 2 (secs mod 60)
  ++ (if us =? 0 then EmptyString else "." ++ zero_pad 6 us).

(** ** The request dispatcher and the world *)

(** One call [query(method, path, reason=..., json=..., res_method=...)];
    an argument the caller leaves out is [None]. *)
Record request : Type := Request {
  req_method : string;
  req_path : string;
  req_reason : option string;
  req_json : option pydict;
  req_res_method : option string
}.

(** The dispatcher object held in [_state].  It is external to the two
    modules: what a call answers (the parsed body [r.response], or an
    exception) is an oracle over the calls issued before it and the call
    itself. *)
Record DiscordAPI : Type := { respond : list request → request → res pyval }.

(** ** Handles and wrappers *)

(** Modelled from the spec: the identifier base [PartialBase] of object.py,
    which is not among the sources: a minimal value object holding a numeric
    identifier, with equality by that identifier.  Every wrapper built on it
    gives access to the identifier it holds. *)
Class PartialBase (A : Type) : Type := base_id : A → Z.


(** Modelled from the spec: the identifier-only handles [PartialGuild]
    (guild.py), [PartialUser] (user.py) and [PartialRole] (role.py), which
    are not among the sources: they hold identifiers and a reference to the
    dispatcher. *)
Record PartialGuild : Type := { guild_state : DiscordAPI; guild_ident : Z }.
Record PartialUser : Type := { puser_state : DiscordAPI; puser_ident : Z }.
Record PartialRole : Type := {
  role_state : DiscordAPI;
  role_guild_id : Z;
  role_ident : Z
}.

#[global] Instance PartialGuild_base : PartialBase PartialGuild := guild_ident.
#[global] Instance PartialUser_base : PartialBase PartialUser := puser_ident.
#[global] Instance PartialRole_base : PartialBase PartialRole := role_ident.

(** Modelled from the spec: the hydrated [User] of user.py, which is not
    among the sources, with the fields [Member] reads from it. *)
Record User : Type := {
  user_ident : Z;
  user_name : string;
  user_global_name : option string
}.

#[global] Instance User_base : PartialBase User := user_ident.

(** The functions of the other modules of the package that [member.py]
    calls: the constructor of [User] and its [__str__], [utils.parse_time]
    and [utils.get_int]. *)
Class Package : Type := {
  User_new : DiscordAPI → pyval → res User;
  parse_time : pyval → res Z;
  get_int : pyval → string → res (option Z);
  User_str : User → string
}.

(** [Asset._from_guild_avatar(guild_id, member_id, avatar)]: the asset is
    kept as the arguments it was made from. *)
Record Asset : Type := {
  asset_guild_id : Z;
  asset_member_id : Z;
  asset_hash : pyval
}.

(** The fields of a [PartialMember]. *)
Record PartialMember : Type := {
  _state : DiscordAPI;
  id : Z;
  _user : PartialUser;
  guild_id : Z
}.

(** The fields of a [ThreadMember]. *)
Record ThreadMember : Type := {
  thread_state : DiscordAPI;
  thread_id : Z;
  thread_flags : pyval;
  join_timestamp : Z
}.

(** The fields of a [Member]: those of the [PartialMember] it extends, with
    [_user] rebound to the hydrated [User], and its own. *)
Record Member : Type := {
  partial : PartialMember;
  member_user : User;
  avatar : option Asset;
  flags : pyval;
  pending : pyval;
  _raw_permissions : option Z;
  nick : pyval;
  joined_at : Z;
  roles : list PartialRole
}.

#[global] Instance PartialMember_base : PartialBase PartialMember := id.
#[global] Instance ThreadMember_base : PartialBase ThreadMember := thread_id.
#[global] Instance Member_base : PartialBase Member := fun m => id (partial m).

(** The world a method runs in: the calls received by the dispatcher so
    far, oldest first, the objects of class [Member] allocated so far, and
    the reading of the system clock. *)
Record world : Type := World {
  calls : list request;
  heap : gmap positive Member;
  clock : Z
}.

(** A method: it may raise, and it changes the world. *)
Definition M (A : Type) : Type := world → res A * world.

#[global] Instance M_ret : MRet M := fun A a w => (Ok a, w).
#[global] Instance M_bind : MBind M := fun A B f m w =>
  match m w with
  | (Ok a, w') => f a w'
  | (Raise e, w') => (Raise e, w')
  end.

Definition raise {A} (e : exn) : M A := fun w => (Raise e, w).

(** An expression without effect on the world. *)
Definition lift {A} (r : res A) : M A := fun w => (r, w).

(** [datetime.utcnow()]. *)
Definition utcnow : M Z := fun w => (Ok (clock w), w).

(** [await state.query(...)]: the call reaches the dispatcher, which
    answers or fails. *)
Definition query (state : DiscordAPI) (method path : string)
    (reason : option string) (json : option pydict)
    (res_method : option string) : M pyval := fun w =>
  let req := Request method path reason json res_method in
  (respond state (calls w) req,
   World (calls w ++ [req])%list (heap w) (clock w)).

(** Allocation of a new [Member] object. *)
Definition new_Member (m : Member) : M positive := fun w =>
  let l := fresh (dom (heap w)) in
  (Ok l, World (calls w) (<[l := m]> (heap w)) (clock w)).

(** [for x in xs: body(x)]. *)
Fixpoint for_each {A} (xs : list A) (body : A → M unit) : M unit :=
  match xs with
  | [] => mret tt
  | x :: rest => body x;; for_each rest body
  end.

(** The items a [for] loop draws from a value: the elements of a list, the
    characters of a string, the keys of a dict (in the order of the map). *)
Definition py_iter (v : pyval) : res (list pyval) :=
  match v with
  | PList xs => Ok xs
  | PStr s => Ok ((fun c => PStr (String c EmptyString)) <$> list_ascii_of_string s)
  | PDict d => Ok ((fun kv => PStr kv.1) <$> map_to_list d)
  | _ => Raise (TypeError ("'" ++ type_name v ++ "' object is not iterable"))
  end.

(** ** mentions.py *)

Module mentions.

(** An object with an [id], as [utils.Snowflake] asks. *)
Record Snowflake : Type := { snowflake_id : Z }.

(** [Optional[Union[bool, list[utils.Snowflake]]]]. *)
Inductive targets : Type :=
| TargetsNone
| TargetsBool (b : bool)
| TargetsList (xs : list Snowflake).

Record AllowedMentions : Type := {
  everyone : bool;
  users : targets;
  roles : targets;
  reply_user : bool
}.

(** [AllowedMentions(everyone, users, roles, replied_user)]. *)
Definition init (everyone : bool) (users roles : targets) (replied_user : bool)
  : AllowedMentions :=
  {| everyone := everyone; users := users; roles := roles;
     reply_user := replied_user |}.

Definition all : AllowedMentions :=
  init true (TargetsBool true) (TargetsBool true) true.

Definition none : AllowedMentions :=
  init false (TargetsBool false) (TargetsBool false) false.

(** One of the two blocks [if isinstance(field, list): data[key] = ...
    elif field is True: parse.append(key)]. *)
Definition add_targets (key : string) (field : targets)
    (st : list pyval * pydict) : list pyval * pydict :=
  let '(parse, data) := st in
  match field with
  | TargetsList xs =>
      (parse, <[key := PList ((fun x => PInt (snowflake_id x)) <$> xs)]> data)
  | TargetsBool true => ((parse ++ [PStr key])%list, data)
  | _ => (parse, data)
  end.

Definition to_dict (self : AllowedMentions) : pydict :=
  let parse : list pyval := [] in
  let data : pydict := ∅ in
  let parse := if everyone self then (parse ++ [PStr "everyone"])%list else parse in
  let '(parse, data) := add_targets "users" (users self) (parse, data) in
  let '(parse, data) := add_targets "roles" (roles self) (parse, data) in
  let data := if reply_user self then <["replied_user" := PBool true]> data else data in
  <["parse" := PList parse]> data.

End mentions.

(** ** member.py *)

(** The sentinel [utils.MISSING]: an argument is left out or given. *)
Inductive arg (A : Type) : Type :=
| MISSING
| Given (a : A).
Arguments MISSING {A}.
Arguments Given {A} a.

(** [Union[PartialRole, Role, int]]. *)
Inductive role_ref : Type :=
| RoleObject (r : PartialRole)
| RoleId (n : Z).

(** [role.id if isinstance(role, (PartialRole, Role)) else role]. *)
Definition role_ref_id (role : role_ref) : Z :=
  match role with
  | RoleObject r => base_id r
  | RoleId n => n
  end.

Definition of_opt_str (o : option string) : pyval :=
  match o with Some s => PStr s | None => PNone end.
Definition of_opt_bool (o : option bool) : pyval :=
  match o with Some b => PBool b | None => PNone end.
Definition of_opt_int (o : option Z) : pyval :=
  match o with Some n => PInt n | None => PNone end.

(** [n in range(lo, hi)] for an [int]. *)
Definition in_range (lo hi n : Z) : bool := (lo <=? n) && (n <? hi).

(** *** PartialMember *)

Definition PartialMember_init (state : DiscordAPI) (guild_id user_id : pyval)
  : res PartialMember :=
  uid ← py_int user_id;
  gid ← py_int guild_id;
  mret {| _state := state;
          id := uid;
          _user := {| puser_state := state; puser_ident := uid |};
          guild_id := gid |}.

Definition PartialMember_str (self : PartialMember) : string := str_int (id self).

Definition PartialMember_int (self : PartialMember) : Z := id self.

Definition PartialMember_repr (self : PartialMember) : string :=
  "<PartialMember id=" ++ str_int (id self) ++ " guild_id="
  ++ str_int (guild_id self) ++ ">".

Definition guild (self : PartialMember) : PartialGuild :=
  {| guild_state := _state self; guild_ident := guild_id self |}.

Definition mention (self : PartialMember) : string :=
  "<@!" ++ str_int (id self) ++ ">".

(** *** ThreadMember *)

Definition ThreadMember_init `{Package} (state : DiscordAPI) (data : pyval)
  : res ThreadMember :=
  user_id ← getitem data "user_id";
  uid ← py_int user_id;
  flags ← getitem data "flags";
  raw ← getitem data "join_timestamp";
  joined ← parse_time raw;
  mret {| thread_state := state; thread_id := uid; thread_flags := flags;
          join_timestamp := joined |}.


Definition ThreadMember_int (self : ThreadMember) : Z := thread_id self.

(** *** Member *)

(** [Member._from_data]: the avatar of the member in the guild, when the
    payload has one. *)
Definition _from_data (self : Member) (data : pyval) : res Member :=
  has_avatar ← py_get data "avatar" PNone;
  if truthy has_avatar then
    mret {| partial := partial self;
            member_user := member_user self;
            avatar := Some {| asset_guild_id := base_id (guild (partial self));
                              asset_member_id := id (partial self);
                              asset_hash := has_avatar |};
            flags := flags self;
            pending := pending self;
            _raw_permissions := _raw_permissions self;
            nick := nick self;
            joined_at := joined_at self;
            roles := roles self |}
  else mret self.

(** [Member.__init__(state=state, guild=guild, data=data)]. *)
Definition Member_init `{Package} (state : DiscordAPI) (guild_ : PartialGuild)
    (data : pyval) : res Member :=
  user_data ← getitem data "user";
  user_id ← getitem user_data "id";
  base ← PartialMember_init state (PInt (base_id guild_)) user_id;
  user_data ← getitem data "user";
  user ← User_new state user_data;
  flags_ ← getitem data "flags";
  pending_ ← py_get data "pending" (PBool false);
  permissions ← get_int data "permissions";
  nick_ ← py_get data "nick" PNone;
  raw ← getitem data "joined_at";
  joined ← parse_time raw;
  raw_roles ← getitem data "roles";
  items ← py_iter raw_roles;
  roles_ ← mapM (fun r =>
              rid ← py_int r;
              mret {| role_state := state;
                      role_guild_id := base_id (guild base);
                      role_ident := rid |}) items;
  _from_data {| partial := base;
                member_user := user;
                avatar := None;
                flags := flags_;
                pending := pending_;
                _raw_permissions := permissions;
                nick := nick_;
                joined_at := joined;
                roles := roles_ |} data.


(** [Permissions(n)] is kept as the integer it wraps. *)
Definition resolved_permissions (self : Member) : Z :=
  match _raw_permissions self with
  | None => 0
  | Some n => n
  end.

Definition name (self : Member) : string := user_name (member_user self).

Definition global_name (self : Member) : option string :=
  user_global_name (member_user self).

Definition display_name (self : Member) : pyval :=
  py_or (py_or (nick self) (of_opt_str (global_name self))) (PStr (name self)).

(** *** The operations of PartialMember *)

Definition member_path (self : PartialMember) : string :=
  "/guilds/" ++ str_int (guild_id self) ++ "/members/" ++ str_int (id self).

Definition ban_path (self : PartialMember) : string :=
  "/guilds/" ++ str_int (guild_id self) ++ "/bans/" ++ str_int (id self).

Definition role_path (self : PartialMember) (role : Z) : string :=
  "/guilds/" ++ str_int (guild_id self) ++ "/members/" ++ str_int (id self)
  ++ "/roles/" ++ str_int role.

Definition fetch `{Package} (self : PartialMember) : M positive :=
  r ← query (_state self) "GET" (member_path self) None None None;
  m ← lift (Member_init (_state self) (guild self) r);
  new_Member m.

Definition ban (self : PartialMember) (reason : option string)
    (delete_message_days delete_message_seconds : option Z) : M unit :=
  let payload : pydict := ∅ in
  if truthy (of_opt_int delete_message_days)
     && truthy (of_opt_int delete_message_seconds)
  then raise (ValueError
    "Cannot specify both delete_message_days and delete_message_seconds")
  else
    payload ←
      match delete_message_days with
      | Some days =>
          if truthy (PInt days) then
            if negb (in_range 0 8 days)
            then raise (ValueError "delete_message_days must be between 0 and 7")
            else
              td ← lift (timedelta days 0);
              mret (<["delete_message_seconds" := PInt (total_seconds_int td)]> payload)
          else mret payload
      | None => mret payload
      end;
    payload ←
      match delete_message_seconds with
      | Some seconds =>
          if truthy (PInt seconds) then
            if negb (in_range 0 604801 seconds)
            then raise (ValueError
              "delete_message_seconds must be between 0 and 604,800")
            else mret (<["delete_message_seconds" := PInt seconds]> payload)
          else mret payload
      | None => mret payload
      end;
    query (_state self) "PUT" (ban_path self) reason (Some payload) None;;
    mret tt.

Definition unban (self : PartialMember) (reason : option string) : M unit :=
  query (_state self) "DELETE" (ban_path self) reason None (Some "text");;
  mret tt.

Definition kick (self : PartialMember) (reason : option string) : M unit :=
  query (_state self) "DELETE" (member_path self) reason None (Some "text");;
  mret tt.

(** The [match] of [edit] on [communication_disabled_until], which leaves
    [_timeout_value] a [datetime] or [None]. *)
Definition timeout_value (x : pyval) (_now : Z) : res (option Z) :=
  match x with
  | PTimedelta td => dt ← datetime_add _now td; mret (Some dt)
  | PDatetime dt => Ok (Some dt)
  | PInt n => td ← timedelta 0 n; dt ← datetime_add _now td; mret (Some dt)
  | PBool b => td ← timedelta 0 (Z.b2z b); dt ← datetime_add _now td; mret (Some dt)
  | PNone => Ok None
  | _ => Raise (TypeError ("Invalid type for communication_disabled_until, "
                           ++ "must be timedelta, datetime, int or NoneType "))
  end.

(** [_timeout_value.isoformat()]. *)
Definition timeout_isoformat (_timeout_value : option Z) : res string :=
  match _timeout_value with
  | Some dt => Ok (isoformat dt)
  | None => Raise (AttributeError "'NoneType' object has no attribute 'isoformat'")
  end.

(** The arguments of [edit]. *)
Record edit_args : Type := {
  arg_nick : arg (option string);
  arg_roles : arg (option (list role_ref));
  arg_mute : arg (option bool);
  arg_deaf : arg (option bool);
  arg_communication_disabled_until : arg pyval;
  arg_channel_id : arg (option Z)
}.

(** The part of [edit] that builds the payload. *)
Definition edit_payload (a : edit_args) : M pydict :=
  let payload : pydict := ∅ in
  let payload :=
    match arg_nick a with
    | Given nick => <["nick" := of_opt_str nick]> payload
    | MISSING => payload
    end in
  let payload :=
    match arg_roles a with
    | Given (Some roles) =>
        <["roles" := PList ((fun role => PInt (role_ref_id role)) <$> roles)]> payload
    | _ => payload
    end in
  let payload :=
    match arg_mute a with
    | Given mute => <["mute" := of_opt_bool mute]> payload
    | MISSING => payload
    end in
  let payload :=
    match arg_deaf a with
    | Given deaf => <["deaf" := of_opt_bool deaf]> payload
    | MISSING => payload
    end in
  let payload :=
    match arg_channel_id a with
    | Given channel_id => <["channel_id" := of_opt_int channel_id]> payload
    | MISSING => payload
    end in
  match arg_communication_disabled_until a with
  | Given x =>
      _now ← utcnow;
      _timeout_value ← lift (timeout_value x _now);
      iso ← lift (timeout_isoformat _timeout_value);
      mret (<["communication_disabled_until" := PStr iso]> payload)
  | MISSING => mret payload
  end.

Definition edit `{Package} (self : PartialMember) (a : edit_args) : M positive :=
  payload ← edit_payload a;
  r ← query (_state self) "PATCH" (member_path self) None (Some payload) None;
  m ← lift (Member_init (_state self) (guild self) r);
  new_Member m.

Definition add_roles (self : PartialMember) (roles : list role_ref)
    (reason : option string) : M unit :=
  for_each roles (fun role =>
    let role := role_ref_id role in
    query (_state self) "PUT" (role_path self role) reason None None;;
    mret tt).

Definition remove_roles (self : PartialMember) (roles : list role_ref)
    (reason : option string) : M unit :=
  for_each roles (fun role =>
    let role := role_ref_id role in
    query (_state self) "DELETE" (role_path self role) reason None None;;
    mret tt).

(** ** Observations *)

(** The calls the dispatcher receives while [m] runs from [w]. *)
Definition issued {A} (m : M A) (w : world) : list request :=
  drop (length (calls w)) (calls (m w).2).

(** The call of [ban], [edit] and [add_roles] for a given payload or role. *)
Definition ban_request (self : PartialMember) (reason : option string)
    (payload : pydict) : request :=
  Request "PUT"
    ("/guilds/" ++ str_int (guild_id self) ++ "/bans/" ++ str_int (id self))
    reason (Some payload) None.

Definition edit_request (self : PartialMember) (payload : pydict) : request :=
  Request "PATCH"
    ("/guilds/" ++ str_int (guild_id self) ++ "/members/" ++ str_int (id self))
    None (Some payload) None.


(** The world after the dispatcher has received [reqs]. *)
Definition after_calls (w : world) (reqs : list request) : world :=
  World (calls w ++ reqs) (heap w) (clock w).

(** The arguments [a] with [roles], or [communication_disabled_until],
    replaced by [v]. *)
Definition with_roles (a : edit_args) (v : arg (option (list role_ref))) : edit_args :=
  {| arg_nick := arg_nick a;
     arg_roles := v;
     arg_mute := arg_mute a;
     arg_deaf := arg_deaf a;
     arg_communication_disabled_until := arg_communication_disabled_until a;
     arg_channel_id := arg_channel_id a |}.

Definition with_communication_disabled_until (a : edit_args) (v : arg pyval)
  : edit_args :=
  {| arg_nick := arg_nick a;
     arg_roles := arg_roles a;
     arg_mute := arg_mute a;
     arg_deaf := arg_deaf a;
     arg_communication_disabled_until := v;
     arg_channel_id := arg_channel_id a |}.

(** [edit()] with every argument left out. *)
Definition no_args : edit_args :=
  {| arg_nick := MISSING;
     arg_roles := MISSING;
     arg_mute := MISSING;
     arg_deaf := MISSING;
     arg_communication_disabled_until := MISSING;
     arg_channel_id := MISSING |}.

Definition supplied {A} (x : arg A) : bool :=
  match x with Given _ => true | MISSING => false end.

(** What [ban] does when it reaches the dispatcher with [payload]: one call,
    whose outcome is the outcome of [ban]. *)
Definition ban_dispatched (self : PartialMember) (reason : option string)
    (payload : pydict) (w : world) : res unit * world :=
  ((_ ← respond (_state self) (calls w) (ban_request self reason payload); Ok tt),
   after_calls w [ban_request self reason payload]).

(** A call refused locally: [ValueError], and the world is as before. *)
Definition ban_refused (self : PartialMember) (reason : option string)
    (days seconds : Z) (w : world) : Prop :=
  ∃ msg, ban self reason (Some days) (Some seconds) w = (Raise (ValueError msg), w).

(** The arguments [ban] refuses, according to its contract. *)
Definition ban_invalid (days seconds : Z) : Prop :=
  (days ≠ 0 ∧ seconds ≠ 0) ∨ ¬ (0 ≤ days ≤ 7) ∨ ¬ (0 ≤ seconds ≤ 604800).

(** The operations of a [PartialMember], inherited by [Member]. *)
Inductive operation : Type :=
| Fetch
| Ban (reason : option string) (delete_message_days delete_message_seconds : option Z)
| Unban (reason : option string)
| Kick (reason : option string)
| Edit (a : edit_args)
| AddRoles (roles : list role_ref) (reason : option string)
| RemoveRoles (roles : list role_ref) (reason : option string).

(** The world after an operation on [self], whatever its outcome. *)
Definition perform `{Package} (self : PartialMember) (op : operation) (w : world)
  : world :=
  match op with
  | Fetch => (fetch self w).2
  | Ban reason days seconds => (ban self reason days seconds w).2
  | Unban reason => (unban self reason w).2
  | Kick reason => (kick self reason w).2
  | Edit a => (edit self a w).2
  | AddRoles roles reason => (add_roles self roles reason w).2
  | RemoveRoles roles reason => (remove_roles self roles reason w).2
  end.

(** A payload of [edit] that is sparse for the arguments [a]: a key is
    present exactly when its argument was given, and for [roles] exactly
    when the argument is a list. *)
Definition sparse_payload (a : edit_args) (p : pydict) : Prop :=
  (is_Some (p !! "nick") ↔ supplied (arg_nick a) = true)
  ∧ (is_Some (p !! "roles") ↔ ∃ roles, arg_roles a = Given (Some roles))
  ∧ (is_Some (p !! "mute") ↔ supplied (arg_mute a) = true)
  ∧ (is_Some (p !! "deaf") ↔ supplied (arg_deaf a) = true)
  ∧ (is_Some (p !! "communication_disabled_until")
     ↔ supplied (arg_communication_disabled_until a) = true)
  ∧ (is_Some (p !! "channel_id") ↔ supplied (arg_channel_id a) = true)
  ∧ dom p ⊆ {[ "nick"; "roles"; "mute"; "deaf"; "communication_disabled_until";
               "channel_id" ]}.

(** A tier of [display_name] that is present: a string that is not empty. *)
Definition present (o : option string) : bool :=
  match o with
  | Some s => negb (String.eqb s EmptyString)
  | None => false
  end.

(** ** A package, a dispatcher and a member for the examples *)

Module example.

Definition User_new (state : DiscordAPI) (data : pyval) : res User :=
  raw ← getitem data "id";
  uid ← py_int raw;
  username ← getitem data "username";
  global ← py_get data "global_name" PNone;
  mret {| user_ident := uid;
          user_name := match username with PStr s => s | _ => EmptyString end;
          user_global_name := match global with PStr s => Some s | _ => None end |}.

(** Timestamps are read as a count of microseconds. *)
Definition parse_time (v : pyval) : res Z :=
  match v with
  | PInt us => Ok us
  | _ => Raise (TypeError "expected a timestamp")
  end.

Definition get_int (data : pyval) (key : string) : res (option Z) :=
  v ← py_get data key PNone;
  match v with
  | PNone => Ok None
  | _ => n ← py_int v; mret (Some n)
  end.

(** [str(user)] is the name of the user. *)
Definition User_str (u : User) : string := user_name u.

Definition package : Package :=
  Build_Package User_new parse_time get_int User_str.

(** The payload of the member 42, whose nickname is [nick]. *)
Definition member_payload (nick : pyval) : pyval :=
  PDict {[ "user" := PDict {[ "id" := PStr "42"; "username" := PStr "ada";
                              "global_name" := PStr "Ada L." ]};
           "nick" := nick;
           "flags" := PInt 0;
           "joined_at" := PInt 63800000000000000;
           "roles" := PList [PStr "7"; PStr "8"] ]}.

(** A dispatcher that refuses the calls on the path [bad] and answers
    the others with the payload of the member 42. *)
Definition api (bad : string) : DiscordAPI :=
  {| respond := fun _ req =>
       if String.eqb (req_path req) bad
       then Raise (Exn "Forbidden" "Missing Permissions")
       else Ok (member_payload (PStr "countess")) |}.

Definition member (bad : string) : PartialMember :=
  {| _state := api bad;
     id := 42;
     _user := {| puser_state := api bad; puser_ident := 42 |};
     guild_id := 9 |}.

(** The member 42 of the guild 9, behind a dispatcher that refuses nothing. *)
Definition ada : PartialMember := member EmptyString.

(** The member 42 of the guild 9, with the three tiers of its name. *)
Definition hydrated (nick : pyval) (global : option string) (username : string)
  : Member :=
  {| partial := ada;
     member_user := {| user_ident := 42; user_name := username;
                       user_global_name := global |};
     avatar := None;
     flags := PInt 0;
     pending := PBool false;
     _raw_permissions := None;
     nick := nick;
     joined_at := 63800000000000000;
     roles := [ {| role_state := api EmptyString; role_guild_id := 9; role_ident := 7 |};
                {| role_state := api EmptyString; role_guild_id := 9; role_ident := 8 |} ] |}.

(** 2024-01-01T00:00:00, no call received, no object allocated. *)
Definition w0 : world := World [] ∅ (738885 * US_PER_DAY).

End example.

(** ** Further observations *)


Definition fetch_request (self : PartialMember) : request :=
  Request "GET"
    ("/guilds/" ++ str_int (guild_id self) ++ "/members/" ++ str_int (id self))
    None None None.

Definition unban_request (self : PartialMember) (reason : option string) : request :=
  Request "DELETE"
    ("/guilds/" ++ str_int (guild_id self) ++ "/bans/" ++ str_int (id self))
    reason None (Some "text").

Definition kick_request (self : PartialMember) (reason : option string) : request :=
  Request "DELETE"
    ("/guilds/" ++ str_int (guild_id self) ++ "/members/" ++ str_int (id self))
    reason None (Some "text").

(** The number of calls an operation may issue at most. *)
Definition max_calls (op : operation) : nat :=
  match op with
  | AddRoles roles _ | RemoveRoles roles _ => length roles
  | _ => 1%nat
  end.

(** The outcome of [fetch] and [edit] once their call [req] is issued: the
    error of the dispatcher, or the error of the construction of the
    [Member] from the answer, or the new object. *)
Definition hydrated_outcome `{Package} (self : PartialMember) (req : request)
    (w : world) : res positive * world :=
  let w1 := after_calls w [req] in
  match respond (_state self) (calls w) req with
  | Raise e => (Raise e, w1)
  | Ok data =>
      match Member_init (_state self) (guild self) data with
      | Raise e => (Raise e, w1)
      | Ok m =>
          (Ok (fresh (dom (heap w))),
           World (calls w1) (<[fresh (dom (heap w)) := m]> (heap w)) (clock w))
      end
  end.

(** The values of a payload of [edit] for the arguments [a], the timeout
    apart: each argument as it was given, [None] as [null], the roles as
    their identifiers. *)
Definition payload_values (a : edit_args) (p : pydict) : Prop :=
  p !! "nick" = match arg_nick a with
                | Given nick => Some (of_opt_str nick)
                | MISSING => None
                end
  ∧ p !! "roles" = match arg_roles a with
                   | Given (Some roles) =>
                       Some (PList ((fun role => PInt (role_ref_id role)) <$> roles))
                   | _ => None
                   end
  ∧ p !! "mute" = match arg_mute a with
                  | Given mute => Some (of_opt_bool mute)
                  | MISSING => None
                  end
  ∧ p !! "deaf" = match arg_deaf a with
                  | Given deaf => Some (of_opt_bool deaf)
                  | MISSING => None
                  end
  ∧ p !! "channel_id" = match arg_channel_id a with
                        | Given channel_id => Some (of_opt_int channel_id)
                        | MISSING => None
                        end.

(** A call on the routes of the member [self]. *)
Definition on_member (self : PartialMember) (req : request) : Prop :=
  req_method req ∈ ["GET"; "PUT"; "PATCH"; "DELETE"]
  ∧ (req_path req = ban_path self ∨ ∃ rest, req_path req = member_path self ++ rest).

(** Two values of [users] or [roles] that [to_dict] cannot tell apart: the
    same list, or [True] twice, or [None] and [False] in any combination. *)
Definition targets_equiv (t t' : mentions.targets) : Prop :=
  match t, t' with
  | mentions.TargetsList xs, mentions.TargetsList ys => xs = ys
  | mentions.TargetsBool true, mentions.TargetsBool true => True
  | (mentions.TargetsNone | mentions.TargetsBool false),
    (mentions.TargetsNone | mentions.TargetsBool false) => True
  | _, _ => False
  end.

(** * Properties *)

(** ** Running a method *)

Ltac run :=
  unfold mbind, M_bind, mret, M_ret, res_bind, res_ret, lift, raise, utcnow,
    query, new_Member; cbn.

Lemma issued_after {A} (m : M A) (w : world) (reqs : list request) :
  calls (m w).2 = (calls w ++ reqs)%list → issued m w = reqs.
Proof. intros E. unfold issued. rewrite E. apply drop_app_length. Qed.

Lemma issued_none {A} (m : M A) (w : world) : (m w).2 = w → issued m w = [].
Proof. intros E. apply issued_after. rewrite E. by rewrite app_nil_r. Qed.

Lemma in_range_spec (lo hi n : Z) : in_range lo hi n = true ↔ lo ≤ n < hi.
Proof. unfold in_range. rewrite andb_true_iff, Z.leb_le, Z.ltb_lt. tauto. Qed.

Lemma in_range_false (lo hi n : Z) : in_range lo hi n = false ↔ ¬ (lo ≤ n < hi).
Proof. rewrite <- in_range_spec. destruct (in_range lo hi n); naive_solver. Qed.

Lemma timedelta_days (d : Z) : 0 ≤ d ≤ 7 → timedelta d 0 = Ok (d * US_PER_DAY).
Proof.
  intros Hd. unfold timedelta.
  replace (d * US_PER_DAY + 0 * US_PER_SECOND) with (d * US_PER_DAY) by lia.
  assert (timedelta_in_range (d * US_PER_DAY) = true) as ->; [|done].
  unfold timedelta_in_range, US_PER_DAY, US_PER_SECOND.
  apply andb_true_intro; split; [apply Z.leb_le | apply Z.ltb_lt]; lia.
Qed.

Lemma total_seconds_days (d : Z) : total_seconds_int (d * US_PER_DAY) = d * 86400.
Proof.
  unfold total_seconds_int, US_PER_DAY.
  replace (d * (86400 * US_PER_SECOND)) with (d * 86400 * US_PER_SECOND) by lia.
  apply Z.quot_mul. unfold US_PER_SECOND. lia.
Qed.

(** ** ban *)

Lemma ban_run_days self reason days w :
  1 ≤ days ≤ 7 →
  ban self reason (Some days) (Some 0) w =
  ban_dispatched self reason {[ "delete_message_seconds" := PInt (days * 86400) ]} w.
Proof.
  intros Hd. unfold ban. cbn [of_opt_int truthy].
  assert ((days =? 0) = false) as -> by (apply Z.eqb_neq; lia).
  assert (in_range 0 8 days = true) as -> by (apply in_range_spec; lia).
  rewrite timedelta_days by lia. run. rewrite total_seconds_days.
  unfold ban_dispatched, after_calls, ban_request, ban_path.
  by destruct (respond _ _ _).
Qed.

Lemma ban_run_seconds self reason seconds w :
  1 ≤ seconds ≤ 604800 →
  ban self reason (Some 0) (Some seconds) w =
  ban_dispatched self reason {[ "delete_message_seconds" := PInt seconds ]} w.
Proof.
  intros Hs. unfold ban. cbn [of_opt_int truthy].
  assert ((seconds =? 0) = false) as -> by (apply Z.eqb_neq; lia).
  assert (in_range 0 604801 seconds = true) as -> by (apply in_range_spec; lia).
  run. unfold ban_dispatched, after_calls, ban_request, ban_path.
  by destruct (respond _ _ _).
Qed.

Lemma ban_run_zero self reason w :
  ban self reason (Some 0) (Some 0) w = ban_dispatched self reason ∅ w.
Proof.
  unfold ban. run. unfold ban_dispatched, after_calls, ban_request, ban_path.
  by destruct (respond _ _ _).
Qed.

Lemma ban_dispatched_issued self reason payload w (m : M unit) :
  m w = ban_dispatched self reason payload w →
  issued m w = [ban_request self reason payload].
Proof. intros E. apply issued_after. by rewrite E. Qed.

Lemma ban_refused_issued self reason days seconds w :
  ban_refused self reason days seconds w →
  issued (ban self reason (Some days) (Some seconds)) w = [].
Proof. intros [msg E]. apply issued_none. by rewrite E. Qed.

(** C1, as amended.  For every [delete_message_days] from 1 to 7 with
    [delete_message_seconds = 0], [ban] issues exactly one call,
    [PUT /guilds/{guild}/bans/{id}], whose JSON payload is
    [{delete_message_seconds: delete_message_days * 86400}]; for
    [delete_message_days = 0] the same call is issued with the empty
    payload, which has no [delete_message_seconds] field. *)
Theorem ban_days_payload self reason days w :
  0 ≤ days ≤ 7 →
  issued (ban self reason (Some days) (Some 0)) w =
  [ban_request self reason
     (if days =? 0 then ∅
      else {[ "delete_message_seconds" := PInt (days * 86400) ]})].
Proof.
  intros Hd. destruct (Z.eqb_spec days 0) as [->|Hne].
  - eapply ban_dispatched_issued, ban_run_zero.
  - eapply ban_dispatched_issued, ban_run_days. lia.
Qed.

Lemma ban_days_payload_witness :
  0 ≤ 3 ≤ 7 ∧
  issued (ban (example.ada) (Some "spam") (Some 3) (Some 0)) example.w0 =
  [Request "PUT" "/guilds/9/bans/42" (Some "spam")
     (Some {[ "delete_message_seconds" := PInt 259200 ]}) None].
Proof.
  split; [lia|].
  apply (ban_days_payload (example.ada) (Some "spam") 3 example.w0). lia.
Defined.

(** C1 as stated fails at [delete_message_days = 0]: the payload sent has no
    [delete_message_seconds] field. *)
Lemma ban_zero_days_counterexample :
  ¬ (∀ days, 0 ≤ days ≤ 7 →
     ∃ payload,
       issued (ban (example.ada) None (Some days) (Some 0)) example.w0
       = [ban_request (example.ada) None payload]
       ∧ payload !! "delete_message_seconds" = Some (PInt (days * 86400))).
Proof.
  intros H. destruct (H 0) as (payload & E & L); [lia|].
  rewrite (ban_dispatched_issued _ _ _ _ _ (ban_run_zero _ _ _)) in E.
  injection E as <-. by rewrite lookup_empty in L.
Qed.

(** C3, as amended.  [ban] raises [ValueError], the local validation error
    of the code, before any dispatcher call and with the world unchanged,
    whenever both [delete_message_days] and [delete_message_seconds] are
    non-zero, or [delete_message_days] is outside 0-7, or
    [delete_message_seconds] is outside 0-604800; otherwise no error is
    raised locally: the dispatcher is called once and its outcome is the
    outcome of [ban]. *)
Theorem ban_validation self reason days seconds w :
  (ban_invalid days seconds ∧ ban_refused self reason days seconds w)
  ∨ (¬ ban_invalid days seconds
     ∧ ∃ payload, ban self reason (Some days) (Some seconds) w
                  = ban_dispatched self reason payload w).
Proof.
  unfold ban_invalid, ban_refused.
  destruct (Z.eqb_spec days 0) as [->|Hd], (Z.eqb_spec seconds 0) as [->|Hs].
  - right. split; [lia|]. eexists. apply ban_run_zero.
  - destruct (in_range 0 604801 seconds) eqn:Hr.
    + apply in_range_spec in Hr. right. split; [lia|].
      eexists. apply ban_run_seconds. lia.
    + left. split; [apply in_range_false in Hr; lia|].
      eexists. unfold ban. cbn [of_opt_int truthy].
      assert ((seconds =? 0) = false) as -> by (by apply Z.eqb_neq).
      rewrite Hr. by run.
  - destruct (in_range 0 8 days) eqn:Hr.
    + apply in_range_spec in Hr. right. split; [lia|].
      eexists. apply ban_run_days. lia.
    + left. split; [apply in_range_false in Hr; lia|].
      eexists. unfold ban. cbn [of_opt_int truthy].
      assert ((days =? 0) = false) as -> by (by apply Z.eqb_neq).
      rewrite Hr. by run.
  - left. split; [lia|]. eexists. unfold ban. cbn [of_opt_int truthy].
    assert ((days =? 0) = false) as -> by (by apply Z.eqb_neq).
    assert ((seconds =? 0) = false) as -> by (by apply Z.eqb_neq).
    by run.
Qed.

(** C3 as stated fails on the class of the error: [ban(delete_message_days=8)]
    raises [ValueError], not [InvalidArgument]. *)
Lemma ban_error_class_counterexample :
  ¬ (∀ days seconds, ban_invalid days seconds →
     ∃ msg, (ban (example.ada) None (Some days) (Some seconds) example.w0).1
            = Raise (Exn "InvalidArgument" msg)).
Proof.
  intros H. destruct (H 8 0) as [msg E].
  - right. left. lia.
  - vm_compute in E. discriminate E.
Qed.

(** ** AllowedMentions *)

(** C4.  [to_dict] emits under [parse] a list that contains ["everyone"],
    ["users"], ["roles"], in this order, exactly for the fields that are the
    boolean [True]; when [users] or [roles] is a list, its identifiers are
    emitted under the key [users] or [roles] and the entry of [parse] is
    skipped; [reply_user = True] adds [replied_user: true]; and
    [all().to_dict()] is [{parse: [everyone, users, roles], replied_user:
    true}], [none().to_dict()] is [{parse: []}]. *)
Theorem to_dict_spec (self : mentions.AllowedMentions) :
  (∃ parse,
     mentions.to_dict self !! "parse" = Some (PList parse)
     ∧ sublist parse [PStr "everyone"; PStr "users"; PStr "roles"]
     ∧ (PStr "everyone" ∈ parse ↔ mentions.everyone self = true)
     ∧ (PStr "users" ∈ parse ↔ mentions.users self = mentions.TargetsBool true)
     ∧ (PStr "roles" ∈ parse ↔ mentions.roles self = mentions.TargetsBool true))
  ∧ mentions.to_dict self !! "users" =
      match mentions.users self with
      | mentions.TargetsList xs =>
          Some (PList ((fun x => PInt (mentions.snowflake_id x)) <$> xs))
      | _ => None
      end
  ∧ mentions.to_dict self !! "roles" =
      match mentions.roles self with
      | mentions.TargetsList xs =>
          Some (PList ((fun x => PInt (mentions.snowflake_id x)) <$> xs))
      | _ => None
      end
  ∧ mentions.to_dict self !! "replied_user" =
      (if mentions.reply_user self then Some (PBool true) else None)
  ∧ dom (mentions.to_dict self) ⊆ {[ "parse"; "users"; "roles"; "replied_user" ]}
  ∧ mentions.to_dict mentions.all =
      {[ "parse" := PList [PStr "everyone"; PStr "users"; PStr "roles"];
         "replied_user" := PBool true ]}
  ∧ mentions.to_dict mentions.none = {[ "parse" := PList [] ]}.
Proof.
  destruct self as [e u r ru].
  split; [|split; [|split; [|split; [|split; [|split]]]]].
  - destruct e, u as [|[]|], r as [|[]|], ru;
      (eexists; split; [reflexivity|]); cbn;
      (split; [by repeat constructor|]);
      rewrite ?elem_of_cons, ?elem_of_nil; naive_solver.
  - by destruct e, u as [|[]|], r as [|[]|], ru.
  - by destruct e, u as [|[]|], r as [|[]|], ru.
  - by destruct e, u as [|[]|], r as [|[]|], ru.
  - unfold mentions.to_dict, mentions.add_targets; cbn.
    destruct e, u as [|[]|], r as [|[]|], ru;
      rewrite ?dom_insert_L, ?dom_empty_L; set_solver.
  - reflexivity.
  - reflexivity.
Qed.

(** ** Member.display_name *)

(** C7.  [display_name] is the nickname when it is not empty, else the
    global display name when it is not empty, else the username. *)
Theorem display_name_order (m : Member) (n : option string) :
  nick m = of_opt_str n →
  display_name m =
    if present n then of_opt_str n
    else if present (global_name m) then of_opt_str (global_name m)
    else PStr (name m).
Proof.
  intros E. unfold display_name, py_or. rewrite E.
  by destruct n as [[|c s]|], (global_name m) as [[|c' g]|].
Qed.

Lemma display_name_order_witness :
  nick (example.hydrated (PStr "countess") (Some "Ada L.") "ada")
    = of_opt_str (Some "countess")
  ∧ display_name (example.hydrated (PStr "countess") (Some "Ada L.") "ada")
    = PStr "countess".
Proof.
  split; [reflexivity|].
  apply (display_name_order
           (example.hydrated (PStr "countess") (Some "Ada L.") "ada")
           (Some "countess")).
  reflexivity.
Defined.

Example display_name_nick :
  display_name (example.hydrated (PStr "countess") (Some "Ada L.") "ada")
  = PStr "countess".
Proof. reflexivity. Qed.

Example display_name_global :
  display_name (example.hydrated PNone (Some "Ada L.") "ada") = PStr "Ada L."
  ∧ display_name (example.hydrated (PStr EmptyString) (Some "Ada L.") "ada") = PStr "Ada L.".
Proof. split; reflexivity. Qed.

Example display_name_username :
  display_name (example.hydrated PNone None "ada") = PStr "ada"
  ∧ display_name (example.hydrated (PStr EmptyString) (Some EmptyString) "ada") = PStr "ada".
Proof. split; reflexivity. Qed.

(** ** add_roles *)

Lemma after_calls_nil w : after_calls w [] = w.
Proof. destruct w. unfold after_calls; cbn. by rewrite app_nil_r. Qed.

Lemma after_calls_app w reqs reqs' :
  after_calls (after_calls w reqs) reqs' = after_calls w (reqs ++ reqs').
Proof. unfold after_calls; cbn. by rewrite app_assoc. Qed.



Example add_roles_second_fails :
  let self := example.member "/guilds/9/members/42/roles/2" in
  add_roles self [RoleId 1; RoleId 2; RoleId 3] None example.w0 =
  (Raise (Exn "Forbidden" "Missing Permissions"),
   after_calls example.w0
     [Request "PUT" "/guilds/9/members/42/roles/1" None None None;
      Request "PUT" "/guilds/9/members/42/roles/2" None None None]).
Proof. reflexivity. Qed.

Example add_roles_all_answered :
  let self := example.ada in
  issued (add_roles self [RoleId 1; RoleObject {| role_state := example.api EmptyString;
                                                 role_guild_id := 9;
                                                 role_ident := 2 |}] None)
    example.w0 =
  [Request "PUT" "/guilds/9/members/42/roles/1" None None None;
   Request "PUT" "/guilds/9/members/42/roles/2" None None None].
Proof. reflexivity. Qed.

(** ** edit *)

Lemma with_communication_disabled_until_id a :
  with_communication_disabled_until a (arg_communication_disabled_until a) = a.
Proof. by destruct a. Qed.

Lemma with_roles_id a : with_roles a (arg_roles a) = a.
Proof. by destruct a. Qed.

(** Without [communication_disabled_until] the payload is built without
    reading the clock and without error. *)
Lemma edit_payload_missing a w :
  ∃ p, edit_payload (with_communication_disabled_until a MISSING) w = (Ok p, w)
       ∧ sparse_payload (with_communication_disabled_until a MISSING) p.
Proof.
  destruct a as [n r m d c ch]. eexists. split; [reflexivity|].
  unfold sparse_payload; cbn.
  destruct n, r as [|[]], m, d, ch; cbn;
    repeat split; intros; rewrite ?dom_insert_L, ?dom_empty_L;
    simplify_map_eq; try set_solver by eauto.
Qed.

(** With it, the resolved timestamp is added last, unless resolving it
    raises. *)
Lemma edit_payload_given a x w :
  ∃ p, edit_payload (with_communication_disabled_until a MISSING) w = (Ok p, w)
       ∧ edit_payload (with_communication_disabled_until a (Given x)) w =
         match tv ← timeout_value x (clock w); timeout_isoformat tv with
         | Ok iso => (Ok (<["communication_disabled_until" := PStr iso]> p), w)
         | Raise e => (Raise e, w)
         end.
Proof.
  destruct a as [n r m d c ch]. eexists. split; [reflexivity|].
  unfold edit_payload; run.
  destruct (timeout_value x (clock w)) as [tv|e]; [|done]. cbn.
  by destruct (timeout_isoformat tv).
Qed.

Lemma sparse_payload_given a x v p :
  sparse_payload (with_communication_disabled_until a MISSING) p →
  sparse_payload (with_communication_disabled_until a (Given x))
    (<["communication_disabled_until" := v]> p).
Proof.
  unfold sparse_payload; cbn. intros (Hn & Hr & Hm & Hd & Hc & Hch & Hdom).
  rewrite lookup_insert_eq, dom_insert_L. rewrite !lookup_insert_ne by done.
  split_and!; [tauto | exact Hr | tauto | tauto | by split; eauto | tauto |].
  apply union_subseteq; split; [|done].
  apply singleton_subseteq_l. rewrite !elem_of_union, !elem_of_singleton. tauto.
Qed.

Lemma edit_payload_outcome a w :
  (∃ e, edit_payload a w = (Raise e, w))
  ∨ (∃ p, edit_payload a w = (Ok p, w) ∧ sparse_payload a p).
Proof.
  rewrite <- (with_communication_disabled_until_id a).
  destruct (arg_communication_disabled_until a) as [|x].
  - right. apply edit_payload_missing.
  - destruct (edit_payload_given a x w) as (p0 & E0 & ->).
    destruct (edit_payload_missing a w) as (p0' & E0' & Hs).
    assert (p0' = p0) as -> by congruence.
    destruct (_ ≫= _) as [iso|e]; [right|left; eauto].
    eexists. split; [done|]. by apply sparse_payload_given.
Qed.

(** A payload that cannot be built is an error of [edit], raised before any
    call; a payload that is built is sent in the one call of [edit]. *)
Lemma edit_raises `{Package} self a w e :
  edit_payload a w = (Raise e, w) → edit self a w = (Raise e, w).
Proof. intros E. unfold edit. run. by rewrite E. Qed.

Lemma edit_issued `{Package} self a w p :
  edit_payload a w = (Ok p, w) → issued (edit self a) w = [edit_request self p].
Proof.
  intros E. apply issued_after. unfold edit. run. rewrite E.
  unfold edit_request, member_path.
  destruct (respond _ _ _); [|done]. by destruct (Member_init _ _ _).
Qed.

(** C2 at [communication_disabled_until=None]: the [match] leaves
    [_timeout_value] at [None], whose [isoformat] does not exist; [edit]
    raises [AttributeError] and issues no call, whatever its other
    arguments. *)
Theorem edit_timeout_none `{Package} self a w :
  edit self (with_communication_disabled_until a (Given PNone)) w =
  (Raise (AttributeError "'NoneType' object has no attribute 'isoformat'"), w).
Proof.
  apply edit_raises.
  by destruct (edit_payload_given a PNone w) as (p & _ & ->).
Qed.

(** The other cases of C2: a [timedelta] or an [int] is added to the
    current time, a [datetime] is taken as it is, and the result is sent
    in ISO-8601 form; any other type is a [TypeError]. *)
Lemma edit_timeout_sent `{Package} self a x w dt :
  timeout_value x (clock w) = Ok (Some dt) →
  ∃ p, issued (edit self (with_communication_disabled_until a (Given x))) w
       = [edit_request self p]
       ∧ p !! "communication_disabled_until" = Some (PStr (isoformat dt)).
Proof.
  intros Hdt. destruct (edit_payload_given a x w) as (p & _ & E).
  rewrite Hdt in E. cbn in E. eexists. split; [by eapply edit_issued|].
  apply lookup_insert_eq.
Qed.

Lemma timeout_value_timedelta td now dt :
  datetime_add now td = Ok dt → timeout_value (PTimedelta td) now = Ok (Some dt).
Proof. intros E. cbn. by rewrite E. Qed.

Lemma timeout_value_datetime dt now :
  timeout_value (PDatetime dt) now = Ok (Some dt).
Proof. reflexivity. Qed.

Lemma timeout_value_int n now td dt :
  timedelta 0 n = Ok td → datetime_add now td = Ok dt →
  timeout_value (PInt n) now = Ok (Some dt).
Proof. intros Etd E. cbn. rewrite Etd. cbn. by rewrite E. Qed.

Lemma edit_timeout_type_error `{Package} self a x w :
  match x with
  | PStr _ | PList _ | PDict _ =>
      ∃ msg, edit self (with_communication_disabled_until a (Given x)) w
             = (Raise (TypeError msg), w)
  | _ => True
  end.
Proof.
  destruct (edit_payload_given a x w) as (p & _ & E).
  destruct x; try done; eexists; apply edit_raises; by rewrite E.
Qed.

Example edit_timeout_3600 :
  ∃ p, issued (@edit example.package (example.ada)
                 (with_communication_disabled_until no_args (Given (PInt 3600))))
         example.w0
       = [Request "PATCH" "/guilds/9/members/42" None (Some p) None]
       ∧ p = {[ "communication_disabled_until" := PStr "2024-01-01T01:00:00" ]}.
Proof. eexists. split; reflexivity. Qed.

(** C6 as stated fails for [roles]: [edit(roles=None)] supplies the argument
    and the payload has no [roles] key. *)
Lemma edit_roles_none_counterexample :
  ¬ (∀ a p,
       issued (@edit example.package (example.ada) a) example.w0
       = [edit_request (example.ada) p] →
       (is_Some (p !! "roles") ↔ supplied (arg_roles a) = true)).
Proof.
  intros Hc.
  destruct (Hc (with_roles no_args (Given None)) ∅) as [_ Hs]; [reflexivity|].
  destruct Hs as [v Hv]; [reflexivity|]. by rewrite lookup_empty in Hv.
Qed.

(** C6, as amended.  Whenever [edit] reaches the dispatcher, it is with one
    call [PATCH /guilds/{guild}/members/{id}] whose payload is sparse: each
    of the keys [nick], [mute], [deaf], [communication_disabled_until],
    [channel_id] is present if and only if its argument was supplied, the key
    [roles] is present if and only if the [roles] argument is a list, and
    there is no other key. *)
Theorem edit_payload_sparse `{Package} self a w req :
  req ∈ issued (edit self a) w →
  ∃ p, req = edit_request self p
       ∧ issued (edit self a) w = [req]
       ∧ sparse_payload a p.
Proof.
  intros Hreq.
  destruct (edit_payload_outcome a w) as [[e E]|(p & E & Hs)].
  - rewrite issued_none in Hreq by (by rewrite (edit_raises _ _ _ _ E)).
    by apply elem_of_nil in Hreq.
  - rewrite (edit_issued _ _ _ _ E) in Hreq |- *.
    apply list_elem_of_singleton in Hreq as ->. eauto.
Qed.

Lemma edit_payload_sparse_witness :
  let a := {| arg_nick := Given (Some "countess");
              arg_roles := Given None;
              arg_mute := MISSING;
              arg_deaf := Given (Some false);
              arg_communication_disabled_until := MISSING;
              arg_channel_id := MISSING |} in
  let req := Request "PATCH" "/guilds/9/members/42" None
               (Some {[ "nick" := PStr "countess"; "deaf" := PBool false ]}) None in
  req ∈ issued (@edit example.package (example.ada) a) example.w0
  ∧ ∃ p, req = edit_request (example.ada) p
         ∧ issued (@edit example.package (example.ada) a) example.w0 = [req]
         ∧ sparse_payload a p.
Proof.
  cbn zeta. split; [by apply list_elem_of_singleton|].
  apply (@edit_payload_sparse example.package (example.ada) _ example.w0).
  by apply list_elem_of_singleton.
Defined.

(** C10.  [edit(roles=None)] behaves as [edit] without the [roles]
    argument, whatever the other arguments are, and no call it issues has a
    [roles] key in its payload. *)
Theorem edit_roles_none_ignored `{Package} self a w :
  edit self (with_roles a (Given None)) w = edit self (with_roles a MISSING) w
  ∧ Forall (fun req => ∃ p, req_json req = Some p ∧ p !! "roles" = None)
      (issued (edit self (with_roles a (Given None))) w).
Proof.
  split; [by destruct a|].
  destruct (edit_payload_outcome (with_roles a (Given None)) w)
    as [[e E]|(p & E & Hs)].
  - rewrite issued_none by (by rewrite (edit_raises _ _ _ _ E)). constructor.
  - rewrite (edit_issued _ _ _ _ E). repeat constructor. exists p. split; [done|].
    destruct Hs as (_ & Hr & _). apply eq_None_not_Some. intros Hsome.
    apply Hr in Hsome as [roles Hroles]. by destruct a.
Qed.

(** ** Identity of the wrappers *)

Ltac res_cases H :=
  repeat match type of H with
         | match ?r with Ok _ => _ | Raise _ => _ end = _ =>
             let E := fresh "E" in destruct r eqn:E; [|discriminate H]
         end.

Lemma _from_data_partial self data m :
  _from_data self data = Ok m →
  partial m = partial self ∧ member_user m = member_user self.
Proof.
  unfold _from_data, mbind, res_bind. intros E. res_cases E.
  destruct (truthy _); injection E as <-; done.
Qed.

(** What a successful construction of a [Member] has read. *)
Lemma Member_init_inv `{Package} state g data m :
  Member_init state g data = Ok m →
  ∃ user_data raw,
    getitem data "user" = Ok user_data
    ∧ getitem user_data "id" = Ok raw
    ∧ py_int raw = Ok (id (partial m))
    ∧ guild_id (partial m) = base_id g
    ∧ _state (partial m) = state
    ∧ User_new state user_data = Ok (member_user m).
Proof.
  unfold Member_init, PartialMember_init, mbind, res_bind, mret, res_ret.
  intros E. cbn in E. res_cases E.
  apply _from_data_partial in E as [-> ->]; cbn.
  repeat match goal with
         | H : Ok _ = Ok _ |- _ => injection H as <-
         end.
  match goal with
  | H : match py_int ?raw with Ok _ => _ | Raise _ => _ end = Ok _ |- _ =>
      destruct (py_int raw) eqn:Eid; [injection H as <-|discriminate H]
  end.
  eexists _, _. split_and!; done.
Qed.

(** ** Members are not modified *)

Lemma for_each_heap {A} (xs : list A) (body : A → M unit) w :
  (∀ x w, heap (body x w).2 = heap w) → heap (for_each xs body w).2 = heap w.
Proof.
  intros Hbody. revert w. induction xs as [|x xs IH]; intros w; [done|].
  cbn [for_each]. unfold mbind, M_bind.
  specialize (Hbody x w). destruct (body x w) as [[[]|e] w1]; cbn in *.
  - by rewrite IH.
  - done.
Qed.

Lemma role_call_heap self method reason role w :
  heap ((query (_state self) method (role_path self role) reason None None;;
         mret tt) w).2 = heap w.
Proof. run. by destruct (respond _ _ _). Qed.

Lemma ban_heap self reason days seconds w :
  heap (ban self reason days seconds w).2 = heap w.
Proof.
  unfold ban.
  destruct days as [d|], seconds as [s|]; cbn [of_opt_int truthy andb];
    repeat match goal with
           | |- context [if ?b then _ else _] => destruct b
           end;
    run; try done;
    repeat match goal with
           | |- context [match ?x with Ok _ => _ | Raise _ => _ end] =>
               destruct x; cbn; try done
           end.
Qed.

Lemma hydrate_heap `{Package} state g (m : M pyval) w :
  heap (m w).2 = heap w →
  heap w ⊆ heap ((r ← m; x ← lift (Member_init state g r); new_Member x) w).2.
Proof.
  intros Hm. run. destruct (m w) as [[r|e] w1]; cbn in *; [|by rewrite Hm].
  destruct (Member_init state g r) as [x|e]; cbn; [|by rewrite Hm].
  rewrite <- Hm. apply insert_subseteq, not_elem_of_dom, is_fresh.
Qed.

Lemma perform_heap `{Package} self op w : heap w ⊆ heap (perform self op w).
Proof.
  destruct op as [|reason days seconds|reason|reason|a|roles reason|roles reason];
    cbn [perform].
  - apply hydrate_heap. by run.
  - by rewrite ban_heap.
  - unfold unban. run. by destruct (respond _ _ _).
  - unfold kick. run. by destruct (respond _ _ _).
  - unfold edit.
    destruct (edit_payload_outcome a w) as [[e E]|(p & E & _)].
    + run. by rewrite E.
    + unfold mbind at 1, M_bind at 1. rewrite E. apply hydrate_heap. by run.
  - unfold add_roles. rewrite for_each_heap; [done|].
    intros; apply role_call_heap.
  - unfold remove_roles. rewrite for_each_heap; [done|].
    intros; apply role_call_heap.
Qed.

Example edit_leaves_original :
  let w1 := (@edit example.package (example.ada) no_args example.w0).2 in
  ∃ l m, heap w1 = {[ l := m ]}
         ∧ (@edit example.package (partial m)
              (with_roles no_args (Given (Some [RoleId 7]))) w1).1 = Ok (l + 1)%positive
         ∧ heap (@edit example.package (partial m)
                   (with_roles no_args (Given (Some [RoleId 7]))) w1).2 !! l = Some m.
Proof. eexists _, _. split_and!; reflexivity. Qed.

(** ** The loops over roles *)

Lemma for_each_cons {A} (x : A) (xs : list A) (body : A → M unit) w :
  for_each (x :: xs) body w =
  match body x w with
  | (Ok _, w1) => for_each xs body w1
  | (Raise e, w1) => (Raise e, w1)
  end.
Proof. reflexivity. Qed.

(** The loop of [add_roles] and [remove_roles], for either method. *)
Lemma roles_loop_sequence method self roles reason w :
  let body := fun role : role_ref =>
    query (_state self) method (role_path self (role_ref_id role)) reason None None;;
    mret tt in
  let reqs := (fun role => Request method (role_path self (role_ref_id role))
                             reason None None) <$> roles in
  (for_each roles body w = (Ok tt, after_calls w reqs)
   ∧ ∀ k req, reqs !! k = Some req →
       is_Ok (respond (_state self) (calls w ++ take k reqs) req) = true)
  ∨ (∃ k req e,
       reqs !! k = Some req
       ∧ (∀ j earlier, (j < k)%nat → reqs !! j = Some earlier →
            is_Ok (respond (_state self) (calls w ++ take j reqs) earlier) = true)
       ∧ respond (_state self) (calls w ++ take k reqs) req = Raise e
       ∧ for_each roles body w = (Raise e, after_calls w (take (S k) reqs))).
Proof.
  cbn zeta. revert w. induction roles as [|role rest IH]; intros w.
  - left. split; [by rewrite after_calls_nil | intros k req Hk; by destruct k].
  - rewrite for_each_cons. cbn [fmap list_fmap].
    set (req0 := Request method (role_path self (role_ref_id role)) reason None None).
    assert ((query (_state self) method (role_path self (role_ref_id role))
               reason None None;; mret tt) w
            = (match respond (_state self) (calls w) req0 with
               | Ok _ => Ok tt
               | Raise e => Raise e
               end, after_calls w [req0])) as ->.
    { run. unfold after_calls. by destruct (respond _ _ _). }
    destruct (respond (_state self) (calls w) req0) as [answer|e] eqn:E0;
      cbv beta iota.
    + destruct (IH (after_calls w [req0]))
        as [[Erun Hall]|(k & req & e & Hk & Hbefore & Ek & Erun)].
      * left. split.
        { rewrite Erun. by rewrite after_calls_app. }
        intros [|k] req Hk; cbn in Hk.
        { injection Hk as <-. cbn. by rewrite app_nil_r, E0. }
        specialize (Hall k req Hk). cbn in Hall |- *.
        by rewrite <- app_assoc in Hall.
      * right. exists (S k), req, e. split; [done|]. split_and!.
        { intros [|j] earlier Hj Hlook; cbn in Hlook.
          - injection Hlook as <-. cbn. by rewrite app_nil_r, E0.
          - assert (j < k)%nat as Hjk by lia.
            specialize (Hbefore j earlier Hjk Hlook). cbn in Hbefore |- *.
            by rewrite <- app_assoc in Hbefore. }
        { cbn in Ek |- *. by rewrite <- app_assoc in Ek. }
        rewrite Erun. by rewrite after_calls_app.
    + right. exists 0%nat, req0, e. split; [done|]. split_and!; [| |done].
      { intros j earlier Hj. lia. }
      cbn. by rewrite app_nil_r.
Qed.


Lemma for_each_ext {A} (xs : list A) (body body' : A → M unit) w :
  (∀ x w, body x w = body' x w) → for_each xs body w = for_each xs body' w.
Proof.
  intros Hbody. revert w. induction xs as [|x xs IH]; intros w; [done|].
  cbn [for_each]. unfold mbind, M_bind. rewrite Hbody.
  destruct (body' x w) as [[[]|e] w1]; [apply IH|done].
Qed.


Lemma for_each_app {A} (xs ys : list A) (body : A → M unit) w :
  for_each (xs ++ ys) body w = (for_each xs body;; for_each ys body) w.
Proof.
  revert w. induction xs as [|x xs IH]; intros w; [done|].
  cbn [for_each app]. unfold mbind, M_bind in *.
  destruct (body x w) as [[[]|e] w1]; [apply IH|done].
Qed.


(** X3.  The loops compose: the roles [xs ++ ys] are handled as the roles
    [xs] and then, if no call failed, the roles [ys]. *)
Theorem roles_app self xs ys reason w :
  add_roles self (xs ++ ys) reason w
  = (add_roles self xs reason;; add_roles self ys reason) w
  ∧ remove_roles self (xs ++ ys) reason w
    = (remove_roles self xs reason;; remove_roles self ys reason) w.
Proof. split; apply for_each_app. Qed.

(** ** More on ban *)

Lemma ban_refuses self reason days seconds w :
  ban_invalid days seconds → ban_refused self reason days seconds w.
Proof.
  unfold ban_invalid, ban_refused. intros Hbad.
  unfold ban. cbn [of_opt_int truthy].
  destruct (Z.eqb_spec days 0) as [->|Hd], (Z.eqb_spec seconds 0) as [->|Hs];
    cbn [negb andb]; [lia| | |by eexists].
  - assert (in_range 0 604801 seconds = false) as Hr
      by (apply in_range_false; lia).
    assert ((seconds =? 0) = false) as Hz by (by apply Z.eqb_neq).
    eexists. run. rewrite ?Hz, Hr. by run.
  - assert (in_range 0 8 days = false) as Hr by (apply in_range_false; lia).
    assert ((days =? 0) = false) as Hz by (by apply Z.eqb_neq).
    eexists. run. rewrite ?Hz, Hr. by run.
Qed.

(** X4.  [None] for a deletion window is the same as [0]. *)
Theorem ban_none_as_zero self reason days seconds w :
  ban self reason days seconds w
  = ban self reason (Some (default 0 days)) (Some (default 0 seconds)) w.
Proof. by destruct days, seconds. Qed.

(** X5.  For [delete_message_seconds] from 1 to 604800 and no days, [ban]
    issues one call whose payload carries the seconds as given. *)
Theorem ban_seconds_payload self reason seconds w :
  1 ≤ seconds ≤ 604800 →
  issued (ban self reason (Some 0) (Some seconds)) w =
  [ban_request self reason {[ "delete_message_seconds" := PInt seconds ]}].
Proof. intros Hs. eapply ban_dispatched_issued, ban_run_seconds. lia. Qed.

Lemma ban_seconds_payload_witness :
  1 ≤ 3600 ≤ 604800 ∧
  issued (ban example.ada None (Some 0) (Some 3600)) example.w0 =
  [Request "PUT" "/guilds/9/bans/42" None
     (Some {[ "delete_message_seconds" := PInt 3600 ]}) None].
Proof.
  split; [lia|]. apply (ban_seconds_payload example.ada None 3600 example.w0). lia.
Defined.

(** X6.  Days are only another way to write seconds: for 1 to 7 days,
    [ban(delete_message_days=d)] behaves as
    [ban(delete_message_seconds=d * 86400)]. *)
Theorem ban_days_as_seconds self reason days w :
  1 ≤ days ≤ 7 →
  ban self reason (Some days) (Some 0) w
  = ban self reason (Some 0) (Some (days * 86400)) w.
Proof.
  intros Hd. rewrite ban_run_days by done. by rewrite ban_run_seconds by lia.
Qed.

Lemma ban_days_as_seconds_witness :
  1 ≤ 7 ≤ 7 ∧
  ban example.ada None (Some 7) (Some 0) example.w0
  = ban example.ada None (Some 0) (Some 604800) example.w0.
Proof.
  split; [lia|]. apply (ban_days_as_seconds example.ada None 7 example.w0). lia.
Defined.

Lemma issued_ext {A} (m m' : M A) w : m w = m' w → issued m w = issued m' w.
Proof. unfold issued. by intros ->. Qed.

(** X7.  Whatever its arguments, [ban] issues at most one call, the [PUT] on
    the ban of the member, and its payload is empty or carries a
    [delete_message_seconds] between 1 and 604800: a window out of range
    never reaches the dispatcher. *)
Theorem ban_payload_bounds self reason days seconds w req :
  req ∈ issued (ban self reason days seconds) w →
  issued (ban self reason days seconds) w = [req]
  ∧ ∃ payload,
      req = ban_request self reason payload
      ∧ (payload = ∅
         ∨ ∃ n, 1 ≤ n ≤ 604800
                ∧ payload = {[ "delete_message_seconds" := PInt n ]}).
Proof.
  rewrite (issued_ext _ _ _ (ban_none_as_zero self reason days seconds w)).
  set (d := default 0 days). set (s := default 0 seconds). intros Hreq.
  assert (ban_invalid d s ∨ (d = 0 ∧ s = 0) ∨ (1 ≤ d ≤ 7 ∧ s = 0)
          ∨ (d = 0 ∧ 1 ≤ s ≤ 604800)) as [Hbad|[[Hd Hs]|[[Hd Hs]|[Hd Hs]]]]
    by (unfold ban_invalid; lia).
  - apply (ban_refuses self reason _ _ w) in Hbad.
    rewrite (ban_refused_issued _ _ _ _ _ Hbad) in Hreq.
    by apply elem_of_nil in Hreq.
  - rewrite Hd, Hs in *.
    rewrite (ban_dispatched_issued _ _ _ _ _ (ban_run_zero _ _ _)) in Hreq |- *.
    apply list_elem_of_singleton in Hreq as ->. eauto.
  - rewrite Hs in *.
    rewrite (ban_dispatched_issued _ _ _ _ _ (ban_run_days _ _ _ _ Hd)) in Hreq |- *.
    apply list_elem_of_singleton in Hreq as ->.
    split; [done|]. eexists. split; [done|]. right. exists (d * 86400). split; [lia|done].
  - rewrite Hd in *.
    rewrite (ban_dispatched_issued _ _ _ _ _ (ban_run_seconds _ _ _ _ Hs)) in Hreq |- *.
    apply list_elem_of_singleton in Hreq as ->.
    split; [done|]. eexists. split; [done|]. right. by exists s.
Qed.

Lemma ban_payload_bounds_witness :
  let req := Request "PUT" "/guilds/9/bans/42" None
               (Some {[ "delete_message_seconds" := PInt 86400 ]}) None in
  req ∈ issued (ban example.ada None (Some 1) None) example.w0
  ∧ issued (ban example.ada None (Some 1) None) example.w0 = [req]
  ∧ ∃ payload,
      req = ban_request example.ada None payload
      ∧ (payload = ∅
         ∨ ∃ n, 1 ≤ n ≤ 604800
                ∧ payload = {[ "delete_message_seconds" := PInt n ]}).
Proof.
  cbn zeta. split; [by apply list_elem_of_singleton|].
  apply (ban_payload_bounds example.ada None (Some 1) None example.w0).
  by apply list_elem_of_singleton.
Defined.

(** ** fetch and edit after their call *)

Lemma fetch_run `{Package} self w :
  fetch self w = hydrated_outcome self (fetch_request self) w.
Proof.
  unfold fetch, hydrated_outcome. run.
  unfold fetch_request, member_path, after_calls.
  destruct (respond _ _ _); [|done]. by destruct (Member_init _ _ _).
Qed.

Lemma edit_run `{Package} self a w p :
  edit_payload a w = (Ok p, w) →
  edit self a w = hydrated_outcome self (edit_request self p) w.
Proof.
  intros E. unfold edit, hydrated_outcome. run. rewrite E.
  unfold edit_request, member_path, after_calls.
  destruct (respond _ _ _); [|done]. by destruct (Member_init _ _ _).
Qed.

Lemma hydrated_outcome_calls `{Package} self req w :
  calls (hydrated_outcome self req w).2 = (calls w ++ [req])%list
  ∧ clock (hydrated_outcome self req w).2 = clock w.
Proof.
  unfold hydrated_outcome.
  destruct (respond _ _ _); [|done]. by destruct (Member_init _ _ _).
Qed.

(** What is known once the call [req] is issued. *)
Lemma hydrated_outcome_spec `{Package} self req w :
  match (hydrated_outcome self req w).1 with
  | Ok l =>
      heap w !! l = None
      ∧ ∃ data m,
          respond (_state self) (calls w) req = Ok data
          ∧ Member_init (_state self) (guild self) data = Ok m
          ∧ heap (hydrated_outcome self req w).2 = <[l := m]> (heap w)
          ∧ guild_id (partial m) = guild_id self
          ∧ _state (partial m) = _state self
  | Raise e =>
      heap (hydrated_outcome self req w).2 = heap w
      ∧ (respond (_state self) (calls w) req = Raise e
         ∨ ∃ data, respond (_state self) (calls w) req = Ok data
                   ∧ Member_init (_state self) (guild self) data = Raise e)
  end.
Proof.
  unfold hydrated_outcome.
  destruct (respond _ _ _) as [data|e]; [|by split; [|left]].
  destruct (Member_init _ _ data) as [m|e] eqn:Em; cbn.
  - split; [apply not_elem_of_dom, is_fresh|].
    exists data, m. split_and!; try done;
      by apply Member_init_inv in Em as (_ & _ & _ & _ & _ & ? & ? & _).
  - split; [done|]. right. by exists data.
Qed.

(** X8.  [fetch] issues exactly one call, [GET /guilds/{guild}/members/{id}]
    without a body.  If it returns, the result is a new object: the
    [Member] built from the answer, for the guild and the dispatcher of
    [self].  If it raises, with the error of the dispatcher or with the
    error of the construction from the answer, no object is allocated. *)
Theorem fetch_outcome `{Package} self w :
  issued (fetch self) w = [fetch_request self]
  ∧ match (fetch self w).1 with
    | Ok l =>
        heap w !! l = None
        ∧ ∃ data m,
            respond (_state self) (calls w) (fetch_request self) = Ok data
            ∧ Member_init (_state self) (guild self) data = Ok m
            ∧ heap (fetch self w).2 = <[l := m]> (heap w)
            ∧ guild_id (partial m) = guild_id self
            ∧ _state (partial m) = _state self
    | Raise e =>
        heap (fetch self w).2 = heap w
        ∧ (respond (_state self) (calls w) (fetch_request self) = Raise e
           ∨ ∃ data, respond (_state self) (calls w) (fetch_request self) = Ok data
                     ∧ Member_init (_state self) (guild self) data = Raise e)
    end.
Proof.
  split.
  - apply issued_after. rewrite fetch_run. apply hydrated_outcome_calls.
  - rewrite fetch_run. apply hydrated_outcome_spec.
Qed.

(** X9.  Once [edit] has issued its [PATCH]: if [edit] returns, the result
    is a new object, the [Member] built from the answer for the guild of
    [self]; it still raises, with the call issued and nothing allocated,
    when the dispatcher fails or when no [Member] can be built from the
    answer. *)
Theorem edit_outcome `{Package} self a w p :
  issued (edit self a) w = [edit_request self p] →
  match (edit self a w).1 with
  | Ok l =>
      heap w !! l = None
      ∧ ∃ data m,
          respond (_state self) (calls w) (edit_request self p) = Ok data
          ∧ Member_init (_state self) (guild self) data = Ok m
          ∧ heap (edit self a w).2 = <[l := m]> (heap w)
          ∧ guild_id (partial m) = guild_id self
          ∧ _state (partial m) = _state self
  | Raise e =>
      heap (edit self a w).2 = heap w
      ∧ (respond (_state self) (calls w) (edit_request self p) = Raise e
         ∨ ∃ data, respond (_state self) (calls w) (edit_request self p) = Ok data
                   ∧ Member_init (_state self) (guild self) data = Raise e)
  end.
Proof.
  intros Hp.
  destruct (edit_payload_outcome a w) as [[e E]|(p' & E & _)].
  - rewrite issued_none in Hp by (by rewrite (edit_raises _ _ _ _ E)). done.
  - rewrite (edit_issued _ _ _ _ E) in Hp. injection Hp as <-.
    rewrite (edit_run _ _ _ _ E). apply hydrated_outcome_spec.
Qed.

Lemma edit_outcome_witness :
  issued (@edit example.package example.ada no_args) example.w0
  = [edit_request example.ada ∅]
  ∧ (@edit example.package example.ada no_args example.w0).1 = Ok 1%positive
  ∧ heap example.w0 !! 1%positive = None.
Proof.
  split; [reflexivity|]. split; [reflexivity|].
  pose proof (@edit_outcome example.package example.ada no_args example.w0 ∅
                eq_refl) as Hout.
  exact (proj1 Hout).
Defined.

Example edit_raises_after_patch :
  let api := {| respond := fun _ _ => Ok PNone |} in
  let self := {| _state := api; id := 42;
                 _user := {| puser_state := api; puser_ident := 42 |};
                 guild_id := 9 |} in
  @edit example.package self no_args example.w0
  = (Raise (TypeError "'NoneType' object is not subscriptable"),
     after_calls example.w0 [edit_request self ∅]).
Proof. reflexivity. Qed.

(** ** What an operation sends *)

Lemma ban_cases self reason days seconds w :
  (∃ msg, ban self reason days seconds w = (Raise (ValueError msg), w))
  ∨ (∃ payload, ban self reason days seconds w = ban_dispatched self reason payload w).
Proof.
  rewrite ban_none_as_zero.
  set (d := default 0 days). set (s := default 0 seconds).
  assert (ban_invalid d s ∨ (d = 0 ∧ s = 0) ∨ (1 ≤ d ≤ 7 ∧ s = 0)
          ∨ (d = 0 ∧ 1 ≤ s ≤ 604800)) as [Hbad|[[-> ->]|[[Hd ->]|[-> Hs]]]]
    by (unfold ban_invalid; lia).
  - left. by apply ban_refuses.
  - right. eexists. apply ban_run_zero.
  - right. eexists. by apply ban_run_days.
  - right. eexists. by apply ban_run_seconds.
Qed.

Lemma on_member_ban self reason payload : on_member self (ban_request self reason payload).
Proof. split; [cbn; set_solver|by left]. Qed.

Lemma on_member_path self method rest reason json res_method :
  method ∈ ["GET"; "PUT"; "PATCH"; "DELETE"] →
  on_member self (Request method (member_path self ++ rest) reason json res_method).
Proof. intros Hm. split; [done|]. right. by exists rest. Qed.

Lemma string_app_nil_r (s : string) : s ++ EmptyString = s.
Proof.
  induction s as [|c s IH]; [done|].
  change (String c s ++ EmptyString) with (String c (s ++ EmptyString)).
  by rewrite IH.
Qed.

Lemma string_app_assoc (s1 s2 s3 : string) : (s1 ++ s2) ++ s3 = s1 ++ (s2 ++ s3).
Proof.
  induction s1 as [|c s1 IH]; [done|].
  change ((String c s1 ++ s2) ++ s3) with (String c ((s1 ++ s2) ++ s3)).
  change (String c s1 ++ s2 ++ s3) with (String c (s1 ++ s2 ++ s3)).
  by rewrite IH.
Qed.

Lemma member_path_nil self : member_path self = member_path self ++ EmptyString.
Proof. by rewrite string_app_nil_r. Qed.

Lemma role_path_member self role :
  role_path self role = member_path self ++ ("/roles/" ++ str_int role).
Proof. unfold role_path, member_path. by rewrite !string_app_assoc. Qed.

(** The calls of the loops: a prefix of the calls for all the roles. *)
Lemma roles_loop_calls method self roles reason w :
  ∃ n, for_each roles (fun role =>
         query (_state self) method (role_path self (role_ref_id role)) reason
           None None;; mret tt) w
       = ((for_each roles (fun role =>
             query (_state self) method (role_path self (role_ref_id role))
               reason None None;; mret tt) w).1,
          after_calls w
            (take n ((fun role => Request method (role_path self (role_ref_id role))
                                    reason None None) <$> roles))).
Proof.
  destruct (roles_loop_sequence method self roles reason w)
    as [[-> _]|(k & req & e & _ & _ & _ & ->)]; cbn.
  - exists (length roles). by rewrite firstn_all2 by (by rewrite length_fmap).
  - by exists (S k).
Qed.

(** Every operation appends calls on the routes of [self], at most
    [max_calls] of them, and leaves the clock alone. *)
Lemma perform_calls `{Package} self op w :
  ∃ reqs,
    calls (perform self op w) = (calls w ++ reqs)%list
    ∧ (length reqs ≤ max_calls op)%nat
    ∧ Forall (on_member self) reqs
    ∧ clock (perform self op w) = clock w.
Proof.
  destruct op as [|reason days seconds|reason|reason|a|roles reason|roles reason];
    cbn [perform max_calls].
  - rewrite fetch_run. exists [fetch_request self].
    destruct (hydrated_outcome_calls self (fetch_request self) w) as [-> ->].
    split_and!; [done..| |done]. apply Forall_singleton.
    unfold fetch_request. fold (member_path self). rewrite member_path_nil.
    apply on_member_path. set_solver.
  - destruct (ban_cases self reason days seconds w) as [[msg ->]|[payload ->]].
    + exists []. cbn. rewrite app_nil_r. split_and!; [done|lia|constructor|done].
    + exists [ban_request self reason payload]. split_and!; [done..| |done].
      apply Forall_singleton. apply on_member_ban.
  - exists [unban_request self reason]. unfold unban. run.
    split_and!; [by destruct (respond _ _ _)|done| |by destruct (respond _ _ _)].
    apply Forall_singleton. split; [cbn; set_solver|by left].
  - exists [kick_request self reason]. unfold kick. run.
    split_and!; [by destruct (respond _ _ _)|done| |by destruct (respond _ _ _)].
    apply Forall_singleton. unfold kick_request. fold (member_path self).
    rewrite member_path_nil. apply on_member_path. set_solver.
  - destruct (edit_payload_outcome a w) as [[e E]|(p & E & _)].
    + rewrite (edit_raises _ _ _ _ E). exists []. cbn. rewrite app_nil_r.
      split_and!; [done|lia|constructor|done].
    + rewrite (edit_run _ _ _ _ E). exists [edit_request self p].
      destruct (hydrated_outcome_calls self (edit_request self p) w) as [-> ->].
      split_and!; [done..| |done]. apply Forall_singleton.
      unfold edit_request. fold (member_path self). rewrite member_path_nil.
      apply on_member_path. set_solver.
  - unfold add_roles.
    destruct (roles_loop_calls "PUT" self roles reason w) as [n ->]. cbn.
    eexists. split_and!; [done| | |done].
    + rewrite length_take, length_fmap. lia.
    + apply Forall_take, Forall_fmap, Forall_forall. intros role _. cbn.
      rewrite role_path_member. apply on_member_path. set_solver.
  - unfold remove_roles.
    destruct (roles_loop_calls "DELETE" self roles reason w) as [n ->]. cbn.
    eexists. split_and!; [done| | |done].
    + rewrite length_take, length_fmap. lia.
    + apply Forall_take, Forall_fmap, Forall_forall. intros role _. cbn.
      rewrite role_path_member. apply on_member_path. set_solver.
Qed.

(** X10.  An operation only adds to the calls the dispatcher has received:
    at most one call for [fetch], [ban], [unban], [kick] and [edit], at most
    one per role for [add_roles] and [remove_roles]. *)
Theorem operation_call_bound `{Package} self op w :
  ∃ reqs,
    calls (perform self op w) = (calls w ++ reqs)%list
    ∧ (length reqs ≤ max_calls op)%nat.
Proof.
  destruct (perform_calls self op w) as (reqs & Hc & Hl & _).
  by exists reqs.
Qed.

(** X11.  Every call an operation issues is a [GET], [PUT], [PATCH] or
    [DELETE] on a route of the member itself:
    [/guilds/{guild}/bans/{id}] or a path under
    [/guilds/{guild}/members/{id}]. *)
Theorem operation_scope `{Package} self op w :
  Forall (on_member self) (drop (length (calls w)) (calls (perform self op w))).
Proof.
  destruct (perform_calls self op w) as (reqs & -> & _ & Hs & _).
  by rewrite drop_app_length.
Qed.

(** ** The values edit sends *)

Lemma edit_payload_values a w p :
  edit_payload a w = (Ok p, w) → payload_values a p.
Proof.
  rewrite <- (with_communication_disabled_until_id a) at 1.
  intros E.
  assert (∀ p0, edit_payload (with_communication_disabled_until a MISSING) w
                = (Ok p0, w) → payload_values a p0) as Hmissing.
  { intros p0. destruct a as [n r m d c ch]. intros [= <-].
    unfold payload_values; cbn.
    destruct n, r as [|[]], m, d, ch; split_and!; reflexivity. }
  destruct (arg_communication_disabled_until a) as [|x]; [by apply Hmissing|].
  destruct (edit_payload_given a x w) as (p0 & E0 & Ex). rewrite Ex in E.
  destruct (_ ≫= _) as [iso|e]; [|done]. injection E as <-.
  destruct (Hmissing p0 E0) as (Hn & Hr & Hm & Hd & Hch).
  unfold payload_values. by rewrite !lookup_insert_ne by done.
Qed.

(** X12.  [edit] sends each supplied argument as it was given, [None] as
    [null]; the roles are sent as the list of their identifiers, in order,
    whether they were given as objects or as identifiers; a key whose
    argument was left out is absent. *)
Theorem edit_values `{Package} self a w req :
  req ∈ issued (edit self a) w →
  ∃ p, req = edit_request self p ∧ payload_values a p.
Proof.
  intros Hreq.
  destruct (edit_payload_outcome a w) as [[e E]|(p & E & _)].
  - rewrite issued_none in Hreq by (by rewrite (edit_raises _ _ _ _ E)).
    by apply elem_of_nil in Hreq.
  - rewrite (edit_issued _ _ _ _ E) in Hreq.
    apply list_elem_of_singleton in Hreq as ->.
    exists p. split; [done|]. by eapply edit_payload_values.
Qed.

Lemma edit_values_witness :
  let role := {| role_state := example.api EmptyString; role_guild_id := 9;
                 role_ident := 7 |} in
  let a := {| arg_nick := Given None;
              arg_roles := Given (Some [RoleObject role; RoleId 8]);
              arg_mute := Given (Some true);
              arg_deaf := MISSING;
              arg_communication_disabled_until := MISSING;
              arg_channel_id := Given (Some 5) |} in
  let req := Request "PATCH" "/guilds/9/members/42" None
               (Some {[ "nick" := PNone; "roles" := PList [PInt 7; PInt 8];
                        "mute" := PBool true; "channel_id" := PInt 5 ]}) None in
  req ∈ issued (@edit example.package example.ada a) example.w0
  ∧ ∃ p, req = edit_request example.ada p ∧ payload_values a p.
Proof.
  cbn zeta. split; [by apply list_elem_of_singleton|].
  apply (@edit_values example.package example.ada _ example.w0).
  by apply list_elem_of_singleton.
Defined.

(** ** The timeout of edit *)

Lemma timedelta_seconds n :
  timedelta_in_range (n * US_PER_SECOND) = true →
  timedelta 0 n = Ok (n * US_PER_SECOND).
Proof.
  intros Hr. unfold timedelta.
  replace (0 * US_PER_DAY + n * US_PER_SECOND) with (n * US_PER_SECOND) by lia.
  by rewrite Hr.
Qed.

(** X13.  An integer timeout is a number of seconds from now: when it is a
    valid duration and leads to a valid date, [edit] sends the ISO-8601 form
    of the current time plus that many seconds. *)
Theorem edit_timeout_seconds `{Package} self a n w :
  timedelta_in_range (n * US_PER_SECOND) = true →
  datetime_in_range (clock w + n * US_PER_SECOND) = true →
  ∃ p, issued (edit self (with_communication_disabled_until a (Given (PInt n)))) w
       = [edit_request self p]
       ∧ p !! "communication_disabled_until"
         = Some (PStr (isoformat (clock w + n * US_PER_SECOND))).
Proof.
  intros Htd Hdt. apply edit_timeout_sent.
  eapply timeout_value_int; [by apply timedelta_seconds|].
  unfold datetime_add. by rewrite Hdt.
Qed.

Lemma edit_timeout_seconds_witness :
  timedelta_in_range (3600 * US_PER_SECOND) = true
  ∧ datetime_in_range (clock example.w0 + 3600 * US_PER_SECOND) = true
  ∧ ∃ p, issued (@edit example.package example.ada
                   (with_communication_disabled_until no_args (Given (PInt 3600))))
           example.w0
         = [edit_request example.ada p]
         ∧ p !! "communication_disabled_until" = Some (PStr "2024-01-01T01:00:00").
Proof.
  split; [reflexivity|]. split; [reflexivity|].
  apply (@edit_timeout_seconds example.package example.ada no_args 3600 example.w0);
    reflexivity.
Defined.

Lemma edit_ext `{Package} self a a' w :
  edit_payload a w = edit_payload a' w → edit self a w = edit self a' w.
Proof. intros E. unfold edit. run. by rewrite E. Qed.

(** X14.  An integer timeout is the [timedelta] of that many seconds, and a
    [bool] is the integer it stands for: [edit] behaves the same on both. *)
Theorem edit_timeout_int_as_timedelta `{Package} self a n b w :
  timedelta_in_range (n * US_PER_SECOND) = true →
  edit self (with_communication_disabled_until a (Given (PInt n))) w
  = edit self (with_communication_disabled_until a
                 (Given (PTimedelta (n * US_PER_SECOND)))) w
  ∧ edit self (with_communication_disabled_until a (Given (PBool b))) w
    = edit self (with_communication_disabled_until a (Given (PInt (Z.b2z b)))) w.
Proof.
  intros Htd. split; apply edit_ext.
  - destruct (edit_payload_given a (PInt n) w) as (p & E0 & ->).
    destruct (edit_payload_given a (PTimedelta (n * US_PER_SECOND)) w)
      as (p1 & E1 & ->).
    assert (p1 = p) as -> by congruence.
    cbn [timeout_value]. by rewrite (timedelta_seconds n Htd).
  - destruct (edit_payload_given a (PBool b) w) as (p & E0 & ->).
    destruct (edit_payload_given a (PInt (Z.b2z b)) w) as (p1 & E1 & ->).
    by assert (p1 = p) as -> by congruence.
Qed.

Lemma edit_timeout_int_as_timedelta_witness :
  timedelta_in_range (60 * US_PER_SECOND) = true
  ∧ @edit example.package example.ada
      (with_communication_disabled_until no_args (Given (PInt 60))) example.w0
    = @edit example.package example.ada
        (with_communication_disabled_until no_args (Given (PTimedelta 60000000)))
        example.w0.
Proof.
  split; [reflexivity|].
  apply (@edit_timeout_int_as_timedelta example.package example.ada no_args 60 true
           example.w0).
  reflexivity.
Defined.

(** X15.  A timeout that is too long for a [timedelta], or that leads
    outside the years 1 to 9999, is an [OverflowError], raised before any
    call. *)
Theorem edit_timeout_overflow `{Package} self a n w :
  timedelta_in_range (n * US_PER_SECOND) = false
  ∨ datetime_in_range (clock w + n * US_PER_SECOND) = false →
  ∃ msg, edit self (with_communication_disabled_until a (Given (PInt n))) w
         = (Raise (OverflowError msg), w).
Proof.
  intros Hover. destruct (edit_payload_given a (PInt n) w) as (p & _ & E).
  destruct (timedelta_in_range (n * US_PER_SECOND)) eqn:Htd.
  - destruct Hover as [?|Hdt]; [done|].
    eexists. apply edit_raises. rewrite E. cbn [timeout_value].
    rewrite (timedelta_seconds n Htd). cbn. unfold datetime_add. by rewrite Hdt.
  - eexists. apply edit_raises. rewrite E. cbn [timeout_value]. unfold timedelta.
    replace (0 * US_PER_DAY + n * US_PER_SECOND) with (n * US_PER_SECOND) by lia.
    by rewrite Htd.
Qed.

Lemma edit_timeout_overflow_witness :
  (timedelta_in_range (300000000000 * US_PER_SECOND) = false
   ∨ datetime_in_range (clock example.w0 + 300000000000 * US_PER_SECOND) = false)
  ∧ ∃ msg, @edit example.package example.ada
             (with_communication_disabled_until no_args (Given (PInt 300000000000)))
             example.w0
           = (Raise (OverflowError msg), example.w0).
Proof.
  split; [right; reflexivity|].
  apply (@edit_timeout_overflow example.package example.ada no_args 300000000000
           example.w0).
  right. reflexivity.
Defined.

(** X16.  A [datetime] is sent as it is, in ISO-8601 form, whatever the
    clock reads; a [str], a [list] or a [dict] is a [TypeError], raised
    before any call. *)
Theorem edit_timeout_datetime_or_wrong_type `{Package} self a w x :
  match x with
  | PDatetime dt =>
      ∃ p, issued (edit self (with_communication_disabled_until a (Given x))) w
           = [edit_request self p]
           ∧ p !! "communication_disabled_until" = Some (PStr (isoformat dt))
  | PStr _ | PList _ | PDict _ =>
      ∃ msg, edit self (with_communication_disabled_until a (Given x)) w
             = (Raise (TypeError msg), w)
  | _ => True
  end.
Proof.
  destruct (edit_payload_given a x w) as (p & _ & E).
  destruct x; try done;
    try (eexists; apply edit_raises; by rewrite E).
  by apply edit_timeout_sent.
Qed.

(** ** An identifier and its decimal form *)

Lemma pretty_N_char_digit (d : N) :
  (d < 10)%N →
  is_digit (pretty_N_char d) = true ∧ digit_val (pretty_N_char d) = Z.of_N d.
Proof.
  intros Hd.
  assert (d = 0 ∨ d = 1 ∨ d = 2 ∨ d = 3 ∨ d = 4 ∨ d = 5 ∨ d = 6 ∨ d = 7
          ∨ d = 8 ∨ d = 9)%N as Hcases by lia.
  repeat (destruct Hcases as [->|Hcases]; [done|]). by subst.
Qed.

Lemma digit_not_space (c : ascii) : is_digit c = true → is_space c = false.
Proof.
  unfold is_digit, is_space. cbv zeta. intros Hd.
  apply andb_true_iff in Hd as [H1%Z.leb_le H2%Z.leb_le].
  apply orb_false_iff; split.
  - apply andb_false_iff. right. apply Z.leb_gt. lia.
  - apply Z.eqb_neq. lia.
Qed.

(** The characters of a string, to speak of all of them. *)
Lemma rev_app_chars (s1 s2 : string) :
  list_ascii_of_string (String.rev_app s1 s2)
  = (rev (list_ascii_of_string s1) ++ list_ascii_of_string s2)%list.
Proof.
  revert s2. induction s1 as [|c s1 IH]; intros s2; [done|].
  cbn. rewrite IH. cbn. by rewrite <- app_assoc.
Qed.

Lemma rev_app_rev_app (s1 s2 s3 : string) :
  String.rev_app (String.rev_app s1 s2) s3 = String.rev_app s2 (s1 ++ s3).
Proof.
  revert s2 s3. induction s1 as [|c s1 IH]; intros s2 s3; [done|].
  cbn [String.rev_app]. by rewrite IH.
Qed.

Lemma lstrip_id (s : string) :
  Forall (fun c => is_space c = false) (list_ascii_of_string s) → lstrip s = s.
Proof. destruct s as [|c s]; [done|]. cbn. intros [-> _]%Forall_cons. done. Qed.

Lemma strip_id (s : string) :
  Forall (fun c => is_space c = false) (list_ascii_of_string s) → strip s = s.
Proof.
  intros Hs. unfold strip. rewrite (lstrip_id s Hs).
  rewrite lstrip_id.
  - unfold String.rev. rewrite rev_app_rev_app. cbn [String.rev_app].
    by rewrite string_app_nil_r.
  - unfold String.rev. rewrite rev_app_chars. cbn. rewrite app_nil_r.
    by apply Forall_rev.
Qed.

Lemma chars_app (s1 s2 : string) :
  list_ascii_of_string (s1 ++ s2)
  = (list_ascii_of_string s1 ++ list_ascii_of_string s2)%list.
Proof.
  induction s1 as [|c s1 IH]; [done|].
  change (String c s1 ++ s2) with (String c (s1 ++ s2)). cbn. by rewrite IH.
Qed.

(** The digits that [pretty] puts in front of [s], read back from the left
    with the accumulator [acc]. *)
Lemma pretty_N_go_digits (x : N) :
  (0 < x)%N →
  ∀ s, ∃ c ds,
    pretty_N_go x s = String c ds ++ s
    ∧ Forall (fun c => is_digit c = true) (list_ascii_of_string (String c ds))
    ∧ ∀ acc b t,
        digits_tail (String c ds ++ t) acc b
        = digits_tail t (acc * 10 ^ Z.of_nat (String.length (String c ds))
                         + Z.of_N x) false.
Proof.
  induction (N.lt_wf_0 x) as [x _ IH]. intros Hx s.
  rewrite pretty_N_go_step by done.
  destruct (pretty_N_char_digit (x `mod` 10)%N) as [Hdig Hval];
    [by apply N.mod_lt|].
  destruct (decide (x `div` 10 = 0)%N) as [Hz|Hnz].
  - rewrite Hz, pretty_N_go_0.
    exists (pretty_N_char (x `mod` 10)), EmptyString. split; [done|].
    split; [by repeat constructor|].
    intros acc b t.
    change (String (pretty_N_char (x `mod` 10)) EmptyString ++ t)
      with (String (pretty_N_char (x `mod` 10)) t).
    cbn [digits_tail]. rewrite Hdig, Hval. f_equal.
    assert (x `mod` 10 = x)%N as ->.
    { rewrite (N.div_mod x 10) at 2 by done. rewrite Hz. lia. }
    cbn [String.length]. change (Z.of_nat 1) with 1. rewrite Z.pow_1_r. lia.
  - destruct (IH (x `div` 10)%N) with
      (s := String (pretty_N_char (x `mod` 10)) s)
      as (c & ds & -> & Hall & Hread);
      [by apply N.div_lt|by apply N.neq_0_lt_0|].
    exists c, (ds ++ String (pretty_N_char (x `mod` 10)) EmptyString). split.
    { change (String c ?a ++ ?b) with (String c (a ++ b)). f_equal.
      clear. induction ds as [|d ds IH]; [done|].
      change (String d ds ++ ?b) with (String d (ds ++ b)).
      change (String d ?a ++ ?b) with (String d (a ++ b)). by rewrite IH. }
    split.
    { change (String c (ds ++ ?b)) with (String c ds ++ b).
      rewrite chars_app. apply Forall_app. split; [done|by repeat constructor]. }
    intros acc b t.
    assert (∀ u, String c (ds ++ String (pretty_N_char (x `mod` 10)) EmptyString) ++ u
                 = String c ds ++ String (pretty_N_char (x `mod` 10)) u) as ->.
    { intros u. change (String c ?a ++ ?b) with (String c (a ++ b)). f_equal.
      clear. induction ds as [|d ds IH]; [done|].
      change (String d ds ++ ?b) with (String d (ds ++ b)).
      change (String d ?a ++ ?b) with (String d (a ++ b)). by rewrite IH. }
    rewrite Hread. cbn [digits_tail]. rewrite Hdig, Hval. f_equal.
    assert (String.length (String c (ds ++ String (pretty_N_char (x `mod` 10)) EmptyString))
            = S (String.length (String c ds))) as ->.
    { cbn. f_equal. clear. induction ds as [|d ds IH]; [done|].
      change (String d ds ++ ?b) with (String d (ds ++ b)). cbn. by rewrite IH. }
    rewrite Nat2Z.inj_succ, Z.pow_succ_r by lia.
    rewrite (N.div_mod x 10) at 3 by done.
    rewrite N2Z.inj_add, N2Z.inj_mul. cbn. lia.
Qed.

Lemma digits_pretty_N_go (x : N) :
  (0 < x)%N →
  digits (pretty_N_go x EmptyString) = Some (Z.of_N x)
  ∧ Forall (fun c => is_digit c = true)
      (list_ascii_of_string (pretty_N_go x EmptyString))
  ∧ ∃ c ds, pretty_N_go x EmptyString = String c ds.
Proof.
  intros Hx. destruct (pretty_N_go_digits x Hx EmptyString) as (c & ds & -> & Hall & Hread).
  rewrite string_app_nil_r. split_and!; [|done|by eauto].
  specialize (Hread 0 false EmptyString). rewrite string_app_nil_r in Hread.
  cbn [digits_tail] in Hread.
  apply Forall_cons in Hall as [Hc _]. cbn [list_ascii_of_string] in Hc.
  rewrite Hc in Hread. unfold digits. rewrite Hc.
  by replace (10 * 0 + digit_val c) with (digit_val c) in Hread by lia.
Qed.

Lemma int_of_str_digits (c : ascii) (r : string) :
  is_digit c = true → strip (String c r) = String c r →
  int_of_str (String c r) = digits (String c r).
Proof.
  intros Hc Hs. unfold int_of_str. rewrite Hs.
  destruct c as [[] [] [] [] [] [] [] []]; try discriminate Hc; reflexivity.
Qed.

(** [int(str(n)) == n]. *)
Lemma int_of_str_str_int (n : Z) : int_of_str (str_int n) = Some n.
Proof.
  unfold str_int, pretty, pretty_Z.
  destruct n as [|p|p]; [done| |].
  - unfold pretty, pretty_positive, pretty, pretty_N.
    destruct (decide (N.pos p = 0%N)) as [|_]; [done|].
    destruct (digits_pretty_N_go (N.pos p)) as (Hd & Hall & c & ds & E); [lia|].
    rewrite E in *. rewrite int_of_str_digits.
    + by rewrite Hd.
    + by apply Forall_cons in Hall as [? _].
    + apply strip_id. eapply Forall_impl; [done|]. apply digit_not_space.
  - unfold pretty, pretty_positive, pretty, pretty_N.
    destruct (decide (N.pos p = 0%N)) as [|_]; [done|].
    destruct (digits_pretty_N_go (N.pos p)) as (Hd & Hall & c & ds & E); [lia|].
    rewrite E in *.
    change ("-" ++ String c ds) with (String "-" (String c ds)).
    unfold int_of_str. rewrite strip_id.
    + by rewrite Hd.
    + constructor; [done|]. eapply Forall_impl; [done|]. apply digit_not_space.
Qed.

(** X17.  The decimal form of a 64-bit identifier is read back as the
    identifier: a [PartialMember] made from the strings [str(guild_id)] and
    [str(member)] has the identifiers of [member], and a [Member] built from
    a payload whose [data["user"]["id"]] is the decimal string of [n] has
    the identifier [n]. *)
Theorem member_id_round_trip `{Package} :
  (∀ state (self : PartialMember),
     0 ≤ id self < 2 ^ 64 → 0 ≤ guild_id self < 2 ^ 64 →
     PartialMember_init state (PStr (str_int (guild_id self)))
       (PStr (PartialMember_str self))
     = Ok {| _state := state; id := id self;
             _user := {| puser_state := state; puser_ident := id self |};
             guild_id := guild_id self |})
  ∧ (∀ state g data user_data n m,
       0 ≤ n < 2 ^ 64 →
       Member_init state g data = Ok m →
       getitem data "user" = Ok user_data →
       getitem user_data "id" = Ok (PStr (str_int n)) →
       base_id m = n).
Proof.
  split.
  - intros state self _ _. unfold PartialMember_init, PartialMember_str. cbn.
    by rewrite !int_of_str_str_int.
  - intros state g data ud n m _ Em Eu Eid.
    apply Member_init_inv in Em as (ud' & raw & Eu' & Eraw & Eint & _).
    assert (ud' = ud) as -> by congruence.
    assert (raw = PStr (str_int n)) as -> by congruence.
    cbn in Eint. rewrite int_of_str_str_int in Eint.
    change (base_id m) with (id (partial m)). congruence.
Qed.

Lemma member_id_round_trip_witness :
  PartialMember_init (example.api EmptyString) (PStr "9")
    (PStr (PartialMember_str example.ada)) = Ok example.ada
  ∧ base_id (example.hydrated PNone (Some "Ada L.") "ada") = 42.
Proof.
  destruct (@member_id_round_trip example.package) as [Hp Hm]. split.
  - apply (Hp (example.api EmptyString) example.ada); cbn; lia.
  - apply (Hm (example.api EmptyString) (guild example.ada)
             (example.member_payload PNone)
             (PDict {[ "id" := PStr "42"; "username" := PStr "ada";
                       "global_name" := PStr "Ada L." ]})
             42 (example.hydrated PNone (Some "Ada L.") "ada"));
      [lia|reflexivity..].
Defined.

(** ** What a Member is built from *)

Lemma getitem_dict data key v :
  getitem data key = Ok v → ∃ d, data = PDict d ∧ d !! key = Some v.
Proof.
  destruct data; try done. cbn. intros E. eexists. split; [done|].
  by destruct (_ !! _); simplify_eq.
Qed.

Lemma mapM_res_Forall2 {A B} (f : A → res B) (xs : list A) (ys : list B) :
  mapM f xs = Ok ys → Forall2 (fun x y => f x = Ok y) xs ys.
Proof.
  revert ys. induction xs as [|x xs IH]; intros ys; cbn.
  - intros [= <-]. constructor.
  - unfold mbind, res_bind, mret, res_ret.
    destruct (f x) as [y|e] eqn:Ey; [|done].
    destruct (mapM f xs) as [ys'|e]; [|done].
    intros [= <-]. constructor; [done|by apply IH].
Qed.

Ltac res_destruct E :=
  repeat match type of E with
         | context [match ?x with _ => _ end] =>
             lazymatch x with
             | context [match _ with _ => _ end] => fail
             | _ => destruct x eqn:?; try discriminate E
             end
         | context [match mapM ?f ?l with _ => _ end] =>
             destruct (mapM f l) eqn:?; try discriminate E
         end.

(** X18.  A [Member] that was built holds the fields of its payload: the
    flags and the joining time are required, [pending] defaults to [False]
    and [nick] to [None], the permissions are what [utils.get_int] reads, and
    the avatar is the asset of the guild, the member and the hash exactly
    when the payload has a hash that is not empty. *)
Theorem Member_init_fields `{Package} state g data m :
  Member_init state g data = Ok m →
  ∃ d, data = PDict d
       ∧ d !! "flags" = Some (flags m)
       ∧ pending m = default (PBool false) (d !! "pending")
       ∧ nick m = default PNone (d !! "nick")
       ∧ get_int data "permissions" = Ok (_raw_permissions m)
       ∧ (∃ raw, d !! "joined_at" = Some raw ∧ parse_time raw = Ok (joined_at m))
       ∧ avatar m =
           (if truthy (default PNone (d !! "avatar"))
            then Some {| asset_guild_id := base_id g;
                         asset_member_id := base_id m;
                         asset_hash := default PNone (d !! "avatar") |}
            else None).
Proof.
  intros E. destruct data as [| | | |xs|d| |]; try discriminate E.
  exists d. split; [done|].
  unfold Member_init, PartialMember_init, _from_data, mbind, res_bind, mret,
    res_ret in E.
  cbn in E.
  res_destruct E;
    simplify_eq/=;
    repeat match goal with
           | Hd : d !! _ = _ |- _ => rewrite Hd; clear Hd
           | Ht : truthy _ = _ |- _ => rewrite Ht; clear Ht
           end;
    split_and!; try done; by eexists.
Qed.

Lemma Member_init_fields_witness :
  Member_init (H := example.package) (example.api EmptyString) (guild example.ada)
    (example.member_payload (PStr "countess"))
  = Ok (example.hydrated (PStr "countess") (Some "Ada L.") "ada")
  ∧ ∃ d, example.member_payload (PStr "countess") = PDict d
         ∧ d !! "flags" = Some (PInt 0).
Proof.
  split; [reflexivity|].
  destruct (@Member_init_fields example.package (example.api EmptyString)
              (guild example.ada) (example.member_payload (PStr "countess"))
              (example.hydrated (PStr "countess") (Some "Ada L.") "ada") eq_refl)
    as (d & Hd & Hflags & _).
  exists d. split; [exact Hd | exact Hflags].
Defined.

(** X19.  The roles of a [Member] that was built are the items of
    [data["roles"]], in order, each read with [int] and made a role handle
    of the guild of the member. *)
Theorem Member_init_roles `{Package} state g data m :
  Member_init state g data = Ok m →
  ∃ raw items,
    getitem data "roles" = Ok raw
    ∧ py_iter raw = Ok items
    ∧ Forall2 (fun item role =>
                 py_int item = Ok (role_ident role)
                 ∧ role_guild_id role = base_id g
                 ∧ role_state role = state)
        items (roles m).
Proof.
  intros E. destruct data as [| | | |xs|d| |]; try discriminate E.
  unfold Member_init, PartialMember_init, _from_data, mbind, res_bind, mret,
    res_ret in E.
  cbn in E. res_destruct E; simplify_eq/=;
    match goal with
    | Hroles : d !! "roles" = Some ?raw, Hiter : py_iter ?raw = Ok ?items,
      Hmap : mapM _ ?items = Ok _ |- _ =>
        exists raw, items; rewrite Hroles; (split_and!; [done..|]);
        apply mapM_res_Forall2 in Hmap;
        (eapply Forall2_impl; [exact Hmap|]);
        cbn; intros item role Hrole;
        destruct (py_int item); [|done]; by injection Hrole as <-
    end.
Qed.

Lemma Member_init_roles_witness :
  Member_init (H := example.package) (example.api EmptyString) (guild example.ada)
    (example.member_payload PNone)
  = Ok (example.hydrated PNone (Some "Ada L.") "ada")
  ∧ role_ident <$> roles (example.hydrated PNone (Some "Ada L.") "ada") = [7; 8].
Proof.
  split; [reflexivity|].
  destruct (@Member_init_roles example.package (example.api EmptyString)
              (guild example.ada) (example.member_payload PNone)
              (example.hydrated PNone (Some "Ada L.") "ada") eq_refl)
    as (raw & items & _ & _ & _).
  reflexivity.
Defined.

(** X20.  A [ThreadMember] that was built has the identifier read with
    [int] from [data["user_id"]], the flags of the payload and the parsed
    [join_timestamp]; the three keys are required. *)
Theorem ThreadMember_init_fields `{Package} state data t :
  ThreadMember_init state data = Ok t →
  ∃ d, data = PDict d
       ∧ (∃ raw, d !! "user_id" = Some raw ∧ py_int raw = Ok (base_id t))
       ∧ d !! "flags" = Some (thread_flags t)
       ∧ (∃ raw, d !! "join_timestamp" = Some raw
                 ∧ parse_time raw = Ok (join_timestamp t))
       ∧ thread_state t = state.
Proof.
  intros E. unfold ThreadMember_init, mbind, res_bind, mret, res_ret in E.
  res_cases E. injection E as <-.
  match goal with
  | H : getitem data "user_id" = Ok _ |- _ =>
      destruct (getitem_dict _ _ _ H) as (d & -> & _)
  end.
  repeat match goal with
         | H : getitem (PDict d) _ = Ok _ |- _ =>
             apply getitem_dict in H as (? & [= <-] & H)
         end.
  exists d. split_and!; try done; by eexists.
Qed.

Lemma ThreadMember_init_fields_witness :
  ThreadMember_init (H := example.package) (example.api EmptyString)
    (PDict {[ "user_id" := PStr "42"; "flags" := PInt 1;
              "join_timestamp" := PInt 5 ]})
  = Ok {| thread_state := example.api EmptyString; thread_id := 42;
          thread_flags := PInt 1; join_timestamp := 5 |}
  ∧ ∃ d, PDict {[ "user_id" := PStr "42"; "flags" := PInt 1;
                  "join_timestamp" := PInt 5 ]} = PDict d
         ∧ d !! "flags" = Some (PInt 1).
Proof.
  assert (ThreadMember_init (H := example.package) (example.api EmptyString)
            (PDict {[ "user_id" := PStr "42"; "flags" := PInt 1;
                      "join_timestamp" := PInt 5 ]})
          = Ok {| thread_state := example.api EmptyString; thread_id := 42;
                  thread_flags := PInt 1; join_timestamp := 5 |}) as Hinit
    by reflexivity.
  split; [exact Hinit|].
  destruct (@ThreadMember_init_fields example.package _ _ _ Hinit)
    as (d & Hd & _ & Hflags & _).
  exists d. split; [exact Hd | exact Hflags].
Defined.

(** X21.  With a nickname that is a string or [None], [display_name] is
    always a string, and it is empty only when the username is. *)
Theorem display_name_is_str (m : Member) (n : option string) :
  nick m = of_opt_str n →
  ∃ s, display_name m = PStr s ∧ (s = EmptyString → name m = EmptyString).
Proof.
  intros E. unfold display_name, py_or. rewrite E.
  destruct n as [[|c s]|], (global_name m) as [[|c' g]|]; cbn;
    eexists; (split; [reflexivity|]); done.
Qed.

Lemma display_name_is_str_witness :
  nick (example.hydrated PNone None "ada") = of_opt_str None
  ∧ ∃ s, display_name (example.hydrated PNone None "ada") = PStr s
         ∧ (s = EmptyString → name (example.hydrated PNone None "ada") = EmptyString).
Proof.
  split; [reflexivity|].
  apply (display_name_is_str (example.hydrated PNone None "ada") None).
  reflexivity.
Defined.

(** ** Distinct members, distinct strings *)

Lemma string_app_char_inj (s s' : string) (c : ascii) :
  s ++ String c EmptyString = s' ++ String c EmptyString → s = s'.
Proof.
  revert s'. induction s as [|a s IH]; intros [|a' s'].
  - done.
  - change (String a' s' ++ ?b) with (String a' (s' ++ b)).
    intros [= _ E]. by destruct s'.
  - change (String a s ++ ?b) with (String a (s ++ b)).
    intros [= _ E]. by destruct s.
  - change (String a s ++ ?b) with (String a (s ++ b)).
    change (String a' s' ++ ?b) with (String a' (s' ++ b)).
    intros [= -> E]. f_equal. by apply IH.
Qed.

(** X22.  Two members have the same [str] exactly when they have the same
    identifier, and the same [mention] exactly when they have the same
    identifier. *)
Theorem str_mention_injective (x y : PartialMember) :
  (PartialMember_str x = PartialMember_str y ↔ id x = id y)
  ∧ (mention x = mention y ↔ id x = id y).
Proof.
  unfold PartialMember_str, mention, str_int. split; split.
  - apply pretty_Z_inj.
  - by intros ->.
  - intros E. apply (inj (String.append "<@!")) in E.
    apply string_app_char_inj in E. by apply pretty_Z_inj in E.
  - by intros ->.
Qed.

(** ** What to_dict keeps of an AllowedMentions *)

Lemma to_dict_lookups (self : mentions.AllowedMentions) :
  mentions.to_dict self !! "parse" =
    Some (PList ((if mentions.everyone self then [PStr "everyone"] else [])
                 ++ match mentions.users self with
                    | mentions.TargetsBool true => [PStr "users"]
                    | _ => []
                    end
                 ++ match mentions.roles self with
                    | mentions.TargetsBool true => [PStr "roles"]
                    | _ => []
                    end))
  ∧ mentions.to_dict self !! "users" =
      match mentions.users self with
      | mentions.TargetsList xs =>
          Some (PList ((fun x => PInt (mentions.snowflake_id x)) <$> xs))
      | _ => None
      end
  ∧ mentions.to_dict self !! "roles" =
      match mentions.roles self with
      | mentions.TargetsList xs =>
          Some (PList ((fun x => PInt (mentions.snowflake_id x)) <$> xs))
      | _ => None
      end
  ∧ mentions.to_dict self !! "replied_user" =
      (if mentions.reply_user self then Some (PBool true) else None).
Proof.
  destruct self as [e u r ru].
  by destruct e, u as [|[]|], r as [|[]|], ru.
Qed.

Lemma snowflake_ids_inj (xs ys : list mentions.Snowflake) :
  (fun x => PInt (mentions.snowflake_id x)) <$> xs
  = (fun x => PInt (mentions.snowflake_id x)) <$> ys → xs = ys.
Proof.
  revert ys. induction xs as [|[x] xs IH]; intros [|[y] ys]; try done.
  cbn. intros [= -> E]. f_equal. by apply IH.
Qed.

(** X23.  [to_dict] keeps everything of an [AllowedMentions] except the
    difference between [None] and [False]: two values have the same
    dictionary exactly when they agree on [everyone] and [reply_user] and
    their [users] and their [roles] are the same list, or both [True], or
    each [None] or [False]. *)
Theorem to_dict_injective (a b : mentions.AllowedMentions) :
  mentions.to_dict a = mentions.to_dict b
  ↔ mentions.everyone a = mentions.everyone b
    ∧ mentions.reply_user a = mentions.reply_user b
    ∧ targets_equiv (mentions.users a) (mentions.users b)
    ∧ targets_equiv (mentions.roles a) (mentions.roles b).
Proof.
  split.
  - intros E.
    destruct (to_dict_lookups a) as (Hpa & Hua & Hra & Hrua).
    destruct (to_dict_lookups b) as (Hpb & Hub & Hrb & Hrub).
    rewrite E in Hpa, Hua, Hra, Hrua.
    rewrite Hpb in Hpa. rewrite Hub in Hua. rewrite Hrb in Hra. rewrite Hrub in Hrua.
    clear E Hpb Hub Hrb Hrub.
    destruct a as [ea ua ra rua], b as [eb ub rb rub]; cbn in *.
    split_and!.
    + by destruct ea, eb, ua as [|[]|], ub as [|[]|], ra as [|[]|], rb as [|[]|].
    + by destruct rua, rub.
    + destruct ua as [|[]|xs], ub as [|[]|ys]; cbn; try done;
        try (injection Hua as Hua; by apply snowflake_ids_inj);
        by destruct ea, eb, ra as [|[]|], rb as [|[]|].
    + destruct ra as [|[]|xs], rb as [|[]|ys]; cbn; try done;
        try (injection Hra as Hra; by apply snowflake_ids_inj);
        by destruct ea, eb, ua as [|[]|], ub as [|[]|].
  - destruct a as [ea ua ra rua], b as [eb ub rb rub]; cbn.
    intros (-> & -> & Hu & Hr).
    destruct ua as [|[]|xs], ub as [|[]|ys]; cbn in Hu; try done; subst;
      destruct ra as [|[]|xs'], rb as [|[]|ys']; cbn in Hr; try done; subst;
      reflexivity.
Qed.

Example to_dict_none_false :
  mentions.to_dict (mentions.init true mentions.TargetsNone
                      (mentions.TargetsBool false) false)
  = mentions.to_dict (mentions.init true (mentions.TargetsBool false)
                        mentions.TargetsNone false).
Proof. reflexivity. Qed.

(** ** Equality and string conversion of the wrappers *)




(** ** A Member and its payload *)

(** C9.  A [Member] built from a payload has the identifier embedded in the
    payload, [data["user"]["id"]], and the identifier of the guild it was
    built with.  [edit] returns a fresh [Member]: once its [PATCH] is
    issued, which it always is without a timeout argument, and the
    dispatcher answers with a payload from which a [Member] can be built,
    [edit] returns a new object that holds this [Member], for the guild of
    the original; conversely an object [edit] returns is such a [Member],
    built from the answer of the dispatcher.  No operation changes an
    object that exists: the original is left as it was. *)
Theorem member_identity `{Package} :
  (∀ state g data m, Member_init state g data = Ok m →
     (user_data ← getitem data "user"; raw ← getitem user_data "id"; py_int raw)
     = Ok (base_id m)
     ∧ guild_id (partial m) = base_id g)
  ∧ (∀ self a w p data m,
       issued (edit self a) w = [edit_request self p] →
       respond (_state self) (calls w) (edit_request self p) = Ok data →
       Member_init (_state self) (guild self) data = Ok m →
       ∃ l, edit self a w
            = (Ok l, World (calls w ++ [edit_request self p])
                       (<[l := m]> (heap w)) (clock w))
            ∧ heap w !! l = None
            ∧ guild_id (partial m) = guild_id self)
  ∧ (∀ self a w,
       ∃ p, issued (edit self (with_communication_disabled_until a MISSING)) w
            = [edit_request self p])
  ∧ (∀ self a w l w', edit self a w = (Ok l, w') →
       heap w !! l = None
       ∧ ∃ p data m,
           issued (edit self a) w = [edit_request self p]
           ∧ respond (_state self) (calls w) (edit_request self p) = Ok data
           ∧ Member_init (_state self) (guild self) data = Ok m
           ∧ heap w' = <[l := m]> (heap w)
           ∧ guild_id (partial m) = guild_id self)
  ∧ (∀ self op w l m, heap w !! l = Some m →
       heap (perform self op w) !! l = Some m).
Proof.
  split_and!.
  - intros state g data m E.
    apply Member_init_inv in E as (ud & raw & -> & Eraw & Eid & Eg & _).
    cbn. rewrite Eraw. cbn. done.
  - intros self a w p data m Hp Hdata Hm.
    destruct (edit_payload_outcome a w) as [[e E]|(p' & E & _)].
    { rewrite issued_none in Hp by (by rewrite (edit_raises _ _ _ _ E)). done. }
    rewrite (edit_issued _ _ _ _ E) in Hp. injection Hp as <-.
    rewrite (edit_run _ _ _ _ E). unfold hydrated_outcome. rewrite Hdata, Hm.
    eexists. split_and!; [done| |].
    + apply not_elem_of_dom, is_fresh.
    + by apply Member_init_inv in Hm as (_ & _ & _ & _ & _ & -> & _).
  - intros self a w.
    destruct (edit_payload_missing a w) as (p & E & _).
    exists p. by apply edit_issued.
  - intros self a w l w' E.
    destruct (edit_payload_outcome a w) as [[e Ep]|(p & Ep & _)].
    { rewrite (edit_raises _ _ _ _ Ep) in E. done. }
    pose proof (hydrated_outcome_spec self (edit_request self p) w) as Hspec.
    rewrite <- (edit_run _ _ _ _ Ep), E in Hspec. cbn in Hspec.
    destruct Hspec as (Hl & data & m & Hdata & Hm & Hheap & Hg & _).
    split; [done|]. exists p, data, m. split_and!; try done.
    by apply edit_issued.
  - intros self op w l m Hl. eapply lookup_weaken; [done|apply perform_heap].
Qed.

Lemma member_identity_witness :
  issued (@edit example.package example.ada no_args) example.w0
  = [edit_request example.ada ∅]
  ∧ respond (_state example.ada) (calls example.w0) (edit_request example.ada ∅)
    = Ok (example.member_payload (PStr "countess"))
  ∧ Member_init (H := example.package) (_state example.ada) (guild example.ada)
      (example.member_payload (PStr "countess"))
    = Ok (example.hydrated (PStr "countess") (Some "Ada L.") "ada")
  ∧ ∃ l, @edit example.package example.ada no_args example.w0
         = (Ok l, World [edit_request example.ada ∅]
                    (<[l := example.hydrated (PStr "countess") (Some "Ada L.") "ada"]> ∅)
                    (clock example.w0))
         ∧ heap example.w0 !! l = None
         ∧ guild_id (partial (example.hydrated (PStr "countess") (Some "Ada L.") "ada"))
           = 9.
Proof.
  split; [reflexivity|]. split; [reflexivity|]. split; [reflexivity|].
  destruct (@member_identity example.package) as (_ & Hedit & _).
  apply (Hedit example.ada no_args example.w0 ∅
           (example.member_payload (PStr "countess"))
           (example.hydrated (PStr "countess") (Some "Ada L.") "ada"));
    reflexivity.
Defined.
